(** * discord_http.tasks: the countdown timer and the periodic-task loop

    A shallow embedding of [src/discord_http/tasks.py] (classes [Sleeper] and
    [Loop]) together with the properties of its schedule arithmetic, its
    failure classification and its life cycle.

    Conventions of the embedding.
    - Instants are integers counting microseconds, the resolution of Python's
      [datetime].  An aware [datetime] is its wall-clock reading together with
      the UTC offset of its zone; zones are fixed offsets ([datetime.timezone],
      of which [UTC] is offset 0).
    - [float] arguments are exact rationals; NaN and the infinities are
      outside the model.  The calendar is unbounded (Python's [datetime]
      ends with the year 9999).
    - [utils.utcnow()] is not part of the embedded file: every operation that
      reads the clock takes the reading [now] as an argument.
    - The coroutine [Loop._looper] is cut at its suspension points ([await]);
      the code between two suspension points runs as one step of the task.
    - The three hooks are opaque callbacks that return normally without
      suspending (as the default hooks do); each call is recorded in a log. *)

From Stdlib Require Import ZArith QArith Qround Bool Lia.
From stdpp Require Import base list.

Open Scope Z_scope.

(** ** Dates and times *)

Module Clock.

(** Microseconds in a day. *)
Definition DAY : Z := 86400000000.
Definition HOUR : Z := 3600000000.

(** [datetime.timezone.utc] *)
Definition UTC : Z := 0.

(** An aware [datetime.datetime]: wall-clock microseconds since the epoch
    as read in its own zone, and that zone's offset from UTC. *)
Record datetime := { dt_wall : Z; dt_off : Z }.

(** An aware [datetime.time]: microseconds since midnight and zone offset. *)
Record atime := { a_tod : Z; a_off : Z }.

(** A [datetime.time] as the caller passes it: its [tzinfo] may be absent. *)
Record dtime := { t_tod : Z; t_tzinfo : option Z }.

(** The point on the UTC time line; aware datetimes compare by it. *)
Definition instant (d : datetime) : Z := dt_wall d - dt_off d.

(** [d.astimezone(tz)] *)
Definition astimezone (d : datetime) (tz : Z) : datetime :=
  {| dt_wall := instant d + tz; dt_off := tz |}.

(** [d.date()], as a day number. *)
Definition date (d : datetime) : Z := dt_wall d / DAY.

(** [d.timetz()] *)
Definition timetz (d : datetime) : atime :=
  {| a_tod := dt_wall d mod DAY; a_off := dt_off d |}.

(** [datetime.combine(day, t, tzinfo=t.tzinfo)] *)
Definition combine (day : Z) (t : atime) : datetime :=
  {| dt_wall := day * DAY + a_tod t; dt_off := a_off t |}.

(** [d + timedelta] with the timedelta in microseconds. *)
Definition add (d : datetime) (td : Z) : datetime :=
  {| dt_wall := dt_wall d + td; dt_off := dt_off d |}.

(** [a <= b] on aware datetimes. *)
Definition leb (a b : datetime) : bool := instant a <=? instant b.

(** Rounding to the nearest integer, ties to even. *)
Definition round_half_even (q : Q) : Z :=
  let f := Qfloor q in
  match Qcompare (q - inject_Z f) (1 # 2) with
  | Lt => f
  | Gt => f + 1
  | Eq => if Z.even f then f else f + 1
  end.

(** [timedelta(seconds=s)], in microseconds. *)
Definition timedelta_seconds (s : Q) : Z :=
  round_half_even (s * inject_Z 1000000).

(** [ts >= start.timetz()] where both carry the same [tzinfo]: Python then
    compares the clock readings only. *)
Definition time_geb (ts start : atime) : bool := a_tod start <=? a_tod ts.

(** The key by which aware times with different zones compare and hash:
    the clock reading brought back to UTC. *)
Definition time_key (t : atime) : Z := a_tod t - a_off t.

(** [ts if ts.tzinfo is not None else ts.replace(tzinfo=UTC)] *)
Definition with_utc_default (t : dtime) : atime :=
  {| a_tod := t_tod t;
     a_off := match t_tzinfo t with Some z => z | None => UTC end |}.

End Clock.

(** ** Exceptions *)

(** The part of Python's exception hierarchy the loop distinguishes.
    [Custom n base] is a user-defined class deriving from [base]. *)
Inductive exc_class :=
| BaseException | Exception | CancelledError
| OSError | TimeoutError | ClientError
| AttributeError | TypeError | ValueError | IndexError | RuntimeError
| Custom (n : nat) (base : exc_class).

Fixpoint exc_class_eqb (c d : exc_class) : bool :=
  match c, d with
  | BaseException, BaseException | Exception, Exception
  | CancelledError, CancelledError | OSError, OSError
  | TimeoutError, TimeoutError | ClientError, ClientError
  | AttributeError, AttributeError | TypeError, TypeError
  | ValueError, ValueError | IndexError, IndexError
  | RuntimeError, RuntimeError => true
  | Custom n b, Custom m b' => Nat.eqb n m && exc_class_eqb b b'
  | _, _ => false
  end.

(** [issubclass(c, d)].  [asyncio.TimeoutError] is the builtin
    [TimeoutError], a subclass of [OSError]; [asyncio.CancelledError]
    derives from [BaseException] directly. *)
Fixpoint issubclass (c d : exc_class) : bool :=
  exc_class_eqb c d ||
  match c with
  | BaseException => false
  | Exception | CancelledError => exc_class_eqb d BaseException
  | TimeoutError =>
      exc_class_eqb d OSError || exc_class_eqb d Exception
      || exc_class_eqb d BaseException
  | OSError | ClientError | AttributeError | TypeError | ValueError
  | IndexError | RuntimeError =>
      exc_class_eqb d Exception || exc_class_eqb d BaseException
  | Custom _ base => issubclass base d
  end.

(** Exception instances.  What the task body raises is kept apart from what
    the embedded code raises itself. *)
Inductive exn :=
| BodyExc (cls : exc_class) (ident : nat)
    (* raised by the task body *)
| CancelledExc
    (* asyncio.CancelledError thrown into the coroutine *)
| NoHandleAttr
    (* AttributeError: 'Loop' object has no attribute '_handle' *)
| NoneOperand
    (* TypeError: None used as a datetime operand *)
| NoneSubscript
    (* TypeError: 'NoneType' object is not subscriptable *)
| ListIndex
    (* IndexError: list index out of range *)
| AlreadyRunning
    (* RuntimeError("The loop is already running") *)
| CountNotPositive
    (* ValueError("count must be greater than 0 or None") *)
| SleepNotPositive
    (* ValueError("The sleep timer cannot be 0") *)
| BothForms
    (* ValueError("Cannot use both time and seconds/minutes/hours") *)
| NotASequence
    (* TypeError("Expected a list, got ... instead") *)
| EmptySequence
    (* ValueError("Expected at least one item, got an empty list instead") *)
| NotATime (index : nat)
    (* TypeError("Expected datetime.time, got ... (Index: i)") *).

Definition exn_class (e : exn) : exc_class :=
  match e with
  | BodyExc c _ => c
  | CancelledExc => CancelledError
  | NoHandleAttr => AttributeError
  | NoneOperand | NoneSubscript | NotASequence | NotATime _ => TypeError
  | ListIndex => IndexError
  | AlreadyRunning => RuntimeError
  | CountNotPositive | SleepNotPositive | BothForms | EmptySequence =>
      ValueError
  end.

(** The errors with which construction and [handle_interval] reject their
    arguments. *)
Definition is_config_error (e : exn) : bool :=
  match e with
  | CountNotPositive | SleepNotPositive | BothForms
  | NotASequence | EmptySequence | NotATime _ => true
  | _ => false
  end.

(** ** The host event loop and the countdown timer *)

Module Sleeper.
Import Clock.

(** State of an [asyncio.Future]. *)
Inductive fut_state := Pending | Finished | Cancelled.

(** State of an [asyncio.TimerHandle] registered with [call_later]. *)
Inductive handle_state := Scheduled | Unscheduled | Ran.

(** A registration [loop.call_later(delay, future.set_result, True)]. *)
Record TimerHandle :=
  { th_delay : Z; th_target : nat; th_state : handle_state }.

(** The objects of the event loop the timers live in.  Futures and timer
    handles are referred to by their position, which never changes. *)
Record EventLoop :=
  { futures : list fut_state;
    scheduled : list TimerHandle;
    callback_errors : nat (* InvalidStateError raised by a callback *) }.

Definition empty_loop : EventLoop :=
  {| futures := []; scheduled := []; callback_errors := 0 |}.

(** [loop.create_future()] *)
Definition create_future (el : EventLoop) : nat * EventLoop :=
  (length (futures el),
   {| futures := futures el ++ [Pending];
      scheduled := scheduled el;
      callback_errors := callback_errors el |}).

(** [loop.call_later(delay, fut.set_result, True)] *)
Definition call_later (delay : Z) (fut : nat) (el : EventLoop)
  : nat * EventLoop :=
  (length (scheduled el),
   {| futures := futures el;
      scheduled := scheduled el ++
        [{| th_delay := delay; th_target := fut; th_state := Scheduled |}];
      callback_errors := callback_errors el |}).

Definition unschedule (th : TimerHandle) : TimerHandle :=
  {| th_delay := th_delay th; th_target := th_target th;
     th_state := match th_state th with
                 | Scheduled => Unscheduled
                 | s => s
                 end |}.

(** [handle.cancel()] *)
Definition handle_cancel (h : nat) (el : EventLoop) : EventLoop :=
  {| futures := futures el;
     scheduled := alter unschedule h (scheduled el);
     callback_errors := callback_errors el |}.

(** [future.cancel()]: only a pending future changes. *)
Definition future_cancel (f : nat) (el : EventLoop) : EventLoop :=
  match futures el !! f with
  | Some Pending =>
      {| futures := <[f := Cancelled]> (futures el);
         scheduled := scheduled el;
         callback_errors := callback_errors el |}
  | _ => el
  end.

(** [future.set_result(True)] run as a callback: on a future that is
    already done it raises InvalidStateError, which the event loop reports
    and counts. *)
Definition set_result (f : nat) (el : EventLoop) : EventLoop :=
  match futures el !! f with
  | Some Pending =>
      {| futures := <[f := Finished]> (futures el);
         scheduled := scheduled el;
         callback_errors := callback_errors el |}
  | _ =>
      {| futures := futures el;
         scheduled := scheduled el;
         callback_errors := S (callback_errors el) |}
  end.

Definition mark_ran (th : TimerHandle) : TimerHandle :=
  {| th_delay := th_delay th; th_target := th_target th; th_state := Ran |}.

(** The event loop reaches the deadline of registration [h]: a handle that
    is still scheduled runs its callback, any other is skipped. *)
Definition run_handle (h : nat) (el : EventLoop) : EventLoop :=
  match scheduled el !! h with
  | Some th =>
      match th_state th with
      | Scheduled =>
          set_result (th_target th)
            {| futures := futures el;
               scheduled := <[h := mark_ran th]> (scheduled el);
               callback_errors := callback_errors el |}
      | _ => el
      end
  | None => el
  end.

(** The event loop lets every registration reach its deadline, in the
    order [hs]. *)
Definition run_handles (hs : list nat) (el : EventLoop) : EventLoop :=
  fold_left (fun e h => run_handle h e) hs el.

(** A [Sleeper] object: its [future] and its current [handle]. *)
Record t := { future : nat; handle : nat }.

(** [max((dt - utils.utcnow()).total_seconds(), 0)] *)
Definition remaining (dt now : datetime) : Z :=
  Z.max (instant dt - instant now) 0.

(** [Sleeper.__init__] *)
Definition init (dt now : datetime) (el : EventLoop) : t * EventLoop :=
  let (f, el1) := create_future el in
  let (h, el2) := call_later (remaining dt now) f el1 in
  ({| future := f; handle := h |}, el2).

(** [Sleeper.recalculate] *)
Definition recalculate (s : t) (dt now : datetime) (el : EventLoop)
  : t * EventLoop :=
  let el1 := handle_cancel (handle s) el in
  let (h, el2) := call_later (remaining dt now) (future s) el1 in
  ({| future := future s; handle := h |}, el2).

(** State of the future [Sleeper.wait] returns. *)
Definition wait (s : t) (el : EventLoop) : option fut_state :=
  futures el !! future s.

(** [Sleeper.done] *)
Definition done (s : t) (el : EventLoop) : bool :=
  match futures el !! future s with
  | Some Pending => false
  | _ => true
  end.

(** [Sleeper.cancel] *)
Definition cancel (s : t) (el : EventLoop) : EventLoop :=
  handle_cancel (handle s) (future_cancel (future s) el).

(** A registration that is still scheduled and will resolve future [f]. *)
Definition is_pending_for (f : nat) (th : TimerHandle) : bool :=
  Nat.eqb (th_target th) f &&
  match th_state th with Scheduled => true | _ => false end.

(** Number of such registrations. *)
Definition pending_triggers (f : nat) (el : EventLoop) : nat :=
  length (List.filter (is_pending_for f) (scheduled el)).

End Sleeper.

(** ** The periodic-task loop *)

Module Loop.
Import Clock.

(** How the coroutine of a task ended: it returned, or an exception left
    it (a task left by CancelledError is a cancelled task). *)
Inductive task_result := Returned | Raised (e : exn).

(** Where the coroutine [_looper] stands: not yet run, suspended at one of
    its [await]s, or finished. *)
Inductive pc :=
| AtStart        (* created by [start], first step not yet run *)
| AtYield        (* await asyncio.sleep(0), before the try block *)
| AtSleepTop     (* await self._try_sleep_until(...), top of the while *)
| AtSleepEarly   (* await self._try_sleep_until(...), early wake-up loop *)
| AtBody         (* await self.func(...) *)
| AtBackoff      (* await asyncio.sleep(5) *)
| AtSleepAfter   (* await self._try_sleep_until(...), after the body *)
| Done (r : task_result).

(** An [asyncio.Task] running [_looper]. *)
Record Task := { t_pc : pc; t_must_cancel : bool }.

Definition task_done (tk : Task) : bool :=
  match t_pc tk with Done _ => true | _ => false end.

(** The attributes of a [Loop] instance.  [_handle] is assigned nowhere but
    in [_try_sleep_until]: [None] stands for the attribute being absent,
    and reading it then raises AttributeError. *)
Record t :=
  { reconnect : bool;
    count : option Z;
    _task : option Task;
    _whitelist_exceptions : list exc_class;
    _seconds : option Q;
    _minutes : option Q;
    _hours : option Q;
    _sleep : option Q;
    _time : option (list atime);
    _will_cancel : bool;
    _should_stop : bool;
    _has_faild : bool;
    _last_loop_failed : bool;
    _last_loop : option datetime;
    _next_loop : option datetime;
    _loop_count : Z;
    _handle : option Sleeper.t }.

(** What the loop does to the outside, in order. *)
Inductive effect :=
| BeforeLoopHook
| AfterLoopHook
| ErrorHook (e : exn)
| BodyCall
| AsyncSleep (seconds : Z)
| EarlyWakeWarning.

(** A loop instance, the event loop it runs on, and the effects so far. *)
Record World :=
  { self : t; host : Sleeper.EventLoop; log : list effect }.

(** *** Attribute assignment *)

Definition set_task (v : option Task) (l : t) : t :=
  {| reconnect := reconnect l; count := count l; _task := v;
     _whitelist_exceptions := _whitelist_exceptions l;
     _seconds := _seconds l; _minutes := _minutes l; _hours := _hours l;
     _sleep := _sleep l; _time := _time l;
     _will_cancel := _will_cancel l; _should_stop := _should_stop l;
     _has_faild := _has_faild l; _last_loop_failed := _last_loop_failed l;
     _last_loop := _last_loop l; _next_loop := _next_loop l;
     _loop_count := _loop_count l; _handle := _handle l |}.

Definition set_whitelist (v : list exc_class) (l : t) : t :=
  {| reconnect := reconnect l; count := count l; _task := _task l;
     _whitelist_exceptions := v;
     _seconds := _seconds l; _minutes := _minutes l; _hours := _hours l;
     _sleep := _sleep l; _time := _time l;
     _will_cancel := _will_cancel l; _should_stop := _should_stop l;
     _has_faild := _has_faild l; _last_loop_failed := _last_loop_failed l;
     _last_loop := _last_loop l; _next_loop := _next_loop l;
     _loop_count := _loop_count l; _handle := _handle l |}.

Definition set_schedule (s m h sl : option Q) (tm : option (list atime))
    (l : t) : t :=
  {| reconnect := reconnect l; count := count l; _task := _task l;
     _whitelist_exceptions := _whitelist_exceptions l;
     _seconds := s; _minutes := m; _hours := h;
     _sleep := sl; _time := tm;
     _will_cancel := _will_cancel l; _should_stop := _should_stop l;
     _has_faild := _has_faild l; _last_loop_failed := _last_loop_failed l;
     _last_loop := _last_loop l; _next_loop := _next_loop l;
     _loop_count := _loop_count l; _handle := _handle l |}.

Definition set_will_cancel (v : bool) (l : t) : t :=
  {| reconnect := reconnect l; count := count l; _task := _task l;
     _whitelist_exceptions := _whitelist_exceptions l;
     _seconds := _seconds l; _minutes := _minutes l; _hours := _hours l;
     _sleep := _sleep l; _time := _time l;
     _will_cancel := v; _should_stop := _should_stop l;
     _has_faild := _has_faild l; _last_loop_failed := _last_loop_failed l;
     _last_loop := _last_loop l; _next_loop := _next_loop l;
     _loop_count := _loop_count l; _handle := _handle l |}.

Definition set_should_stop (v : bool) (l : t) : t :=
  {| reconnect := reconnect l; count := count l; _task := _task l;
     _whitelist_exceptions := _whitelist_exceptions l;
     _seconds := _seconds l; _minutes := _minutes l; _hours := _hours l;
     _sleep := _sleep l; _time := _time l;
     _will_cancel := _will_cancel l; _should_stop := v;
     _has_faild := _has_faild l; _last_loop_failed := _last_loop_failed l;
     _last_loop := _last_loop l; _next_loop := _next_loop l;
     _loop_count := _loop_count l; _handle := _handle l |}.

Definition set_has_faild (v : bool) (l : t) : t :=
  {| reconnect := reconnect l; count := count l; _task := _task l;
     _whitelist_exceptions := _whitelist_exceptions l;
     _seconds := _seconds l; _minutes := _minutes l; _hours := _hours l;
     _sleep := _sleep l; _time := _time l;
     _will_cancel := _will_cancel l; _should_stop := _should_stop l;
     _has_faild := v; _last_loop_failed := _last_loop_failed l;
     _last_loop := _last_loop l; _next_loop := _next_loop l;
     _loop_count := _loop_count l; _handle := _handle l |}.

Definition set_last_loop_failed (v : bool) (l : t) : t :=
  {| reconnect := reconnect l; count := count l; _task := _task l;
     _whitelist_exceptions := _whitelist_exceptions l;
     _seconds := _seconds l; _minutes := _minutes l; _hours := _hours l;
     _sleep := _sleep l; _time := _time l;
     _will_cancel := _will_cancel l; _should_stop := _should_stop l;
     _has_faild := _has_faild l; _last_loop_failed := v;
     _last_loop := _last_loop l; _next_loop := _next_loop l;
     _loop_count := _loop_count l; _handle := _handle l |}.

Definition set_last_loop (v : option datetime) (l : t) : t :=
  {| reconnect := reconnect l; count := count l; _task := _task l;
     _whitelist_exceptions := _whitelist_exceptions l;
     _seconds := _seconds l; _minutes := _minutes l; _hours := _hours l;
     _sleep := _sleep l; _time := _time l;
     _will_cancel := _will_cancel l; _should_stop := _should_stop l;
     _has_faild := _has_faild l; _last_loop_failed := _last_loop_failed l;
     _last_loop := v; _next_loop := _next_loop l;
     _loop_count := _loop_count l; _handle := _handle l |}.

Definition set_next_loop (v : option datetime) (l : t) : t :=
  {| reconnect := reconnect l; count := count l; _task := _task l;
     _whitelist_exceptions := _whitelist_exceptions l;
     _seconds := _seconds l; _minutes := _minutes l; _hours := _hours l;
     _sleep := _sleep l; _time := _time l;
     _will_cancel := _will_cancel l; _should_stop := _should_stop l;
     _has_faild := _has_faild l; _last_loop_failed := _last_loop_failed l;
     _last_loop := _last_loop l; _next_loop := v;
     _loop_count := _loop_count l; _handle := _handle l |}.

Definition set_loop_count (v : Z) (l : t) : t :=
  {| reconnect := reconnect l; count := count l; _task := _task l;
     _whitelist_exceptions := _whitelist_exceptions l;
     _seconds := _seconds l; _minutes := _minutes l; _hours := _hours l;
     _sleep := _sleep l; _time := _time l;
     _will_cancel := _will_cancel l; _should_stop := _should_stop l;
     _has_faild := _has_faild l; _last_loop_failed := _last_loop_failed l;
     _last_loop := _last_loop l; _next_loop := _next_loop l;
     _loop_count := v; _handle := _handle l |}.

Definition set_handle (v : option Sleeper.t) (l : t) : t :=
  {| reconnect := reconnect l; count := count l; _task := _task l;
     _whitelist_exceptions := _whitelist_exceptions l;
     _seconds := _seconds l; _minutes := _minutes l; _hours := _hours l;
     _sleep := _sleep l; _time := _time l;
     _will_cancel := _will_cancel l; _should_stop := _should_stop l;
     _has_faild := _has_faild l; _last_loop_failed := _last_loop_failed l;
     _last_loop := _last_loop l; _next_loop := _next_loop l;
     _loop_count := _loop_count l; _handle := v |}.

(** Apply an attribute assignment, an event-loop operation or an effect to
    the world. *)
Definition on_self (f : t -> t) (w : World) : World :=
  {| self := f (self w); host := host w; log := log w |}.

Definition on_host (f : Sleeper.EventLoop -> Sleeper.EventLoop)
    (w : World) : World :=
  {| self := self w; host := f (host w); log := log w |}.

Definition emit (e : effect) (w : World) : World :=
  {| self := self w; host := host w; log := log w ++ [e] |}.

(** *** Observers *)

(** [Loop.is_running] *)
Definition is_running (l : t) : bool :=
  match _task l with
  | Some tk => negb (task_done tk)
  | None => false
  end.

(** [Loop.loop_count] *)
Definition loop_count (l : t) : Z := _loop_count l.

(** [Loop.failed] *)
Definition failed (l : t) : bool := _has_faild l.

(** [Loop.is_being_cancelled] *)
Definition is_being_cancelled (l : t) : bool := _will_cancel l.

(** [Loop.fetch_task] *)
Definition fetch_task (l : t) : option Task := _task l.

Definition _is_relative_time (l : t) : bool :=
  match _time l with None => true | Some _ => false end.

Definition _is_explicit_time (l : t) : bool :=
  match _time l with None => false | Some _ => true end.

(** [except self._whitelist_exceptions] catches [e]. *)
Definition whitelisted (l : t) (e : exn) : bool :=
  existsb (issubclass (exn_class e)) (_whitelist_exceptions l).

(** *** The schedule: validation *)

(** An item of the sequence passed as [time]. *)
Inductive pyval := PyTime (tm : dtime) | PyOther.

(** A value passed as [time] that is not [None]: one [datetime.time], a
    sequence, or anything else. *)
Inductive time_arg :=
| OneTime (tm : dtime)
| Seq (items : list pyval)
| NotSeq.

(** The [for] loop of [_sort_static_times], from index [i] on. *)
Fixpoint collect_times (i : nat) (items : list pyval)
  : exn + list atime :=
  match items with
  | [] => inr []
  | PyOther :: _ => inl (NotATime i)
  | PyTime tm :: rest =>
      match collect_times (S i) rest with
      | inl e => inl e
      | inr out => inr (with_utc_default tm :: out)
      end
  end.

(** Put [tm] at its place in an ascending list unless a time equal to it
    is already there. *)
Fixpoint insert_time (tm : atime) (l : list atime) : list atime :=
  match l with
  | [] => [tm]
  | x :: r =>
      if time_key tm <? time_key x then tm :: l
      else if time_key tm =? time_key x then l
      else x :: insert_time tm r
  end.

(** [sorted(set(output))]: of equal times the set keeps the first. *)
Definition sorted_set (output : list atime) : list atime :=
  fold_left (fun acc tm => insert_time tm acc) output [].

(** [Loop._sort_static_times] *)
Definition _sort_static_times (times : time_arg) : exn + list atime :=
  match times with
  | OneTime tm => inr [with_utc_default tm]
  | NotSeq => inl NotASequence
  | Seq [] => inl EmptySequence
  | Seq items =>
      match collect_times 0 items with
      | inl e => inl e
      | inr output => inr (sorted_set output)
      end
  end.

(** [x or 0.0] *)
Definition or_zero (x : option Q) : Q :=
  match x with
  | Some q => if Qeq_bool q 0 then 0%Q else q
  | None => 0%Q
  end.

(** Truth value of an optional number. *)
Definition truthy (x : option Q) : bool :=
  match x with
  | Some q => negb (Qeq_bool q 0)
  | None => false
  end.

(** [seconds + (minutes * 60.0) + (hours * 3600.0)] *)
Definition total_sleep (seconds minutes hours : option Q) : Q :=
  (or_zero seconds + or_zero minutes * 60 + or_zero hours * 3600)%Q.

(** The first part of [Loop.handle_interval]: check the arguments and
    replace the schedule. *)
Definition configure (seconds minutes hours : option Q)
    (time : option time_arg) (l : t) : exn + t :=
  match time with
  | None =>
      let sleep := total_sleep seconds minutes hours in
      if Qle_bool sleep 0 then inl SleepNotPositive
      else inr (set_schedule (Some (or_zero seconds))
                  (Some (or_zero minutes)) (Some (or_zero hours))
                  (Some sleep) None l)
  | Some times =>
      if truthy seconds || truthy minutes || truthy hours
      then inl BothForms
      else match _sort_static_times times with
           | inl e => inl e
           | inr ts => inr (set_schedule None None None None (Some ts) l)
           end
  end.

(** *** The schedule: next deadline *)

(** The [for] loop of [_find_time_index], from index [i] on. *)
Fixpoint find_from (i : nat) (times : list atime) (now : datetime)
  : option nat :=
  match times with
  | [] => None
  | ts :: rest =>
      let start := astimezone now (a_off ts) in
      if time_geb ts (timetz start) then Some i
      else find_from (S i) rest now
  end.

(** [Loop._find_time_index] *)
Definition _find_time_index (l : t) (now : datetime) : option nat :=
  match _time l with
  | None | Some [] => None
  | Some times => find_from 0 times now
  end.

(** [Loop._next_sleep_time], with the reading of the clock as [now]. *)
Definition _next_sleep_time (l : t) (now : datetime) : exn + datetime :=
  match _sleep l with
  | Some sleep =>
      match _last_loop l with
      | Some last => inr (add last (timedelta_seconds sleep))
      | None => inl NoneOperand
      end
  | None =>
      match _find_time_index l now with
      | None =>
          match _time l with
          | None => inl NoneSubscript
          | Some [] => inl ListIndex
          | Some (time :: _) =>
              let tomorrow := add (astimezone now (a_off time)) DAY in
              inr (astimezone (combine (date tomorrow) time) UTC)
          end
      | Some index =>
          match _time l with
          | None => inl NoneSubscript
          | Some times =>
              match times !! index with
              | None => inl ListIndex
              | Some time =>
                  let day := date (astimezone now (a_off time)) in
                  inr (astimezone (combine day time) UTC)
              end
          end
      end
  end.

(** *** Construction *)

(** The attributes as [__init__] leaves them when [handle_interval] is
    called, the remaining ones at the values assigned after the call. *)
Definition blank (count : option Z) (reconnect : bool) : t :=
  {| reconnect := reconnect; count := count; _task := None;
     _whitelist_exceptions := [OSError; TimeoutError; ClientError];
     _seconds := None; _minutes := None; _hours := None;
     _sleep := None; _time := None;
     _will_cancel := false; _should_stop := false;
     _has_faild := false; _last_loop_failed := false;
     _last_loop := None; _next_loop := None;
     _loop_count := 0; _handle := None |}.

(** [Loop.__init__].  No task exists yet, so of [handle_interval] only the
    first part runs. *)
Definition init (seconds minutes hours : option Q)
    (time : option time_arg) (count : option Z) (reconnect : bool)
  : exn + t :=
  if match count with Some c => c <=? 0 | None => false end
  then inl CountNotPositive
  else configure seconds minutes hours time (blank count reconnect).

(** A freshly constructed loop on an idle event loop. *)
Definition new_world (l : t) : World :=
  {| self := l; host := Sleeper.empty_loop; log := [] |}.

(** *** The coroutine [_looper] *)

(** What awaiting the task body yields. *)
Inductive body_outcome :=
| BodyReturns
| BodyRaises (cls : exc_class) (ident : nat).

Definition set_pc (p : pc) (l : t) : t :=
  match _task l with
  | Some tk =>
      set_task (Some {| t_pc := p; t_must_cancel := t_must_cancel tk |}) l
  | None => l
  end.

Definition clear_must_cancel (l : t) : t :=
  match _task l with
  | Some tk => set_task (Some {| t_pc := t_pc tk; t_must_cancel := false |}) l
  | None => l
  end.

(** The coroutine stops at an [await]. *)
Definition suspend (p : pc) (w : World) : World := on_self (set_pc p) w.

(** The coroutine is over. *)
Definition finish (r : task_result) (w : World) : World :=
  on_self (set_pc (Done r)) w.

(** The [finally] block; [r] is how the coroutine ends if the block
    completes. *)
Definition finally_ (r : task_result) (w : World) : World :=
  let w1 := emit AfterLoopHook w in
  match _handle (self w1) with
  | None => finish (Raised NoHandleAttr) w1
  | Some s =>
      let w2 := on_host (Sleeper.cancel s) w1 in
      let w3 := on_self (set_will_cancel false) w2 in
      let w4 := on_self (set_loop_count 0) w3 in
      let w5 := on_self (set_should_stop false) w4 in
      finish r w5
  end.

(** [return] or [break] inside the [try]. *)
Definition on_return (w : World) : World := finally_ Returned w.

(** An exception reaches the [except] clauses of the [try]. *)
Definition on_exception (e : exn) (w : World) : World :=
  if issubclass (exn_class e) CancelledError then
    finally_ (Raised e) (on_self (set_will_cancel true) w)
  else if issubclass (exn_class e) Exception then
    finally_ Returned (emit (ErrorHook e) (on_self (set_has_faild true) w))
  else finally_ (Raised e) w.

(** [await self._try_sleep_until(self._next_loop)], suspending at [p]. *)
Definition try_sleep_until (p : pc) (now : datetime) (w : World) : World :=
  match _next_loop (self w) with
  | None => on_exception NoneOperand w
  | Some dt =>
      let (s, el) := Sleeper.init dt now (host w) in
      suspend p (on_self (set_handle (Some s)) (on_host (fun _ => el) w))
  end.

(** [await self.func(...)] *)
Definition call_body (w : World) : World := suspend AtBody (emit BodyCall w).

(** The condition and the body of the early wake-up [while]. *)
Definition early_check (now : datetime) (w : World) : World :=
  if _is_explicit_time (self w) then
    match _next_loop (self w), _last_loop (self w) with
    | Some n, Some l =>
        if leb n l
        then try_sleep_until AtSleepEarly now (emit EarlyWakeWarning w)
        else call_body w
    | _, _ => on_exception NoneOperand w
    end
  else call_body w.

(** After the sleep of the early wake-up [while]. *)
Definition after_early (now : datetime) (w : World) : World :=
  match _next_sleep_time (self w) now with
  | inl e => on_exception e w
  | inr dl => early_check now (on_self (set_next_loop (Some dl)) w)
  end.

(** [if not self._last_loop_failed: ...] up to the call of the body. *)
Definition pass_body (now : datetime) (w : World) : World :=
  if negb (_last_loop_failed (self w)) then
    let w1 := on_self (fun l => set_last_loop (_next_loop l) l) w in
    match _next_sleep_time (self w1) now with
    | inl e => on_exception e w1
    | inr dl => early_check now (on_self (set_next_loop (Some dl)) w1)
    end
  else call_body w.

(** Top of [while True]. *)
Definition loop_top (now : datetime) (w : World) : World :=
  if _is_explicit_time (self w)
  then try_sleep_until AtSleepTop now w
  else pass_body now w.

(** [self._loop_count += 1] and the test of the count bound. *)
Definition count_cycle (now : datetime) (w : World) : World :=
  let w1 := on_self (fun l => set_loop_count (_loop_count l + 1) l) w in
  if match count (self w1) with
     | Some c => negb (c =? 0) && (c <=? loop_count (self w1))
     | None => false
     end
  then on_return w1
  else loop_top now w1.

(** The body returned: [self._last_loop_failed = False] and the [else]
    clause. *)
Definition after_body_ok (now : datetime) (w : World) : World :=
  let w1 := on_self (set_last_loop_failed false) w in
  if _should_stop (self w1) then on_return w1
  else if _is_relative_time (self w1)
       then try_sleep_until AtSleepAfter now w1
       else count_cycle now w1.

(** An exception left the body. *)
Definition after_body_raise (e : exn) (w : World) : World :=
  if whitelisted (self w) e then
    let w1 := on_self (set_last_loop_failed true) w in
    if negb (reconnect (self w1)) then on_exception e w1
    else suspend AtBackoff (emit (AsyncSleep 5) w1)
  else on_exception e w.

(** Entering the [try]. *)
Definition enter_try (now : datetime) (w : World) : World :=
  if _should_stop (self w) then on_return w else loop_top now w.

(** The lines before the [try]. *)
Definition prologue (now : datetime) (w : World) : World :=
  let w1 := emit BeforeLoopHook w in
  let w2 := on_self (set_last_loop_failed false) w1 in
  if _is_explicit_time (self w2) then
    match _next_sleep_time (self w2) now with
    | inl e => finish (Raised e) w2
    | inr dl => enter_try now (on_self (set_next_loop (Some dl)) w2)
    end
  else
    suspend AtYield
      (emit (AsyncSleep 0) (on_self (set_next_loop (Some now)) w2)).

(** The task is woken while it awaits the future of its Sleeper: a
    requested cancellation or a cancelled future raises CancelledError at
    the [await], a finished future lets the coroutine go on with [k], and
    while the future is pending the task is not woken. *)
Definition awaited (k : World -> World) (tk : Task) (w : World) : World :=
  if t_must_cancel tk
  then on_exception CancelledExc (on_self clear_must_cancel w)
  else match _handle (self w) with
       | None => w
       | Some s =>
           match Sleeper.wait s (host w) with
           | Some Sleeper.Finished => k w
           | Some Sleeper.Cancelled => on_exception CancelledExc w
           | _ => w
           end
       end.

(** One step of the task: the coroutine runs from where it stands to its
    next [await] or to its end.  [now] is the reading of the clock during
    the step and [out] the outcome of the body when the step resumes from
    the body.  A requested cancellation is delivered as CancelledError at
    the [await] (the body lets it through). *)
Definition resume (now : datetime) (out : body_outcome) (w : World)
  : World :=
  match _task (self w) with
  | None => w
  | Some tk =>
      match t_pc tk with
      | Done _ => w
      | AtStart =>
          if t_must_cancel tk
          then finish (Raised CancelledExc) (on_self clear_must_cancel w)
          else prologue now w
      | AtYield =>
          if t_must_cancel tk
          then finish (Raised CancelledExc) (on_self clear_must_cancel w)
          else enter_try now w
      | AtSleepTop => awaited (pass_body now) tk w
      | AtSleepEarly => awaited (after_early now) tk w
      | AtSleepAfter => awaited (count_cycle now) tk w
      | AtBackoff =>
          if t_must_cancel tk
          then on_exception CancelledExc (on_self clear_must_cancel w)
          else loop_top now w
      | AtBody =>
          if t_must_cancel tk
          then after_body_raise CancelledExc (on_self clear_must_cancel w)
          else match out with
               | BodyReturns => after_body_ok now w
               | BodyRaises c i => after_body_raise (BodyExc c i) w
               end
      end
  end.

(** *** Control surface *)

(** [Loop.start]: the new task, or RuntimeError. *)
Definition start (w : World) : exn + (Task * World) :=
  if is_running (self w) then inl AlreadyRunning
  else
    let tk := {| t_pc := AtStart; t_must_cancel := false |} in
    inr (tk, on_self (fun l => set_task (Some tk)
                                 (set_last_loop_failed false l)) w).

(** [Loop.stop] *)
Definition stop (w : World) : World :=
  if is_running (self w) then on_self (set_should_stop true) w else w.

(** [Loop._can_be_cancelled] *)
Definition _can_be_cancelled (l : t) : bool :=
  negb (_will_cancel l) && is_running l.

Definition request_cancel (l : t) : t :=
  match _task l with
  | Some tk => set_task (Some {| t_pc := t_pc tk; t_must_cancel := true |}) l
  | None => l
  end.

(** [asyncio.Task.cancel] on a task that is not done: a pending future the
    task awaits is cancelled, otherwise the request is kept for the next
    step. *)
Definition task_cancel (tk : Task) (w : World) : World :=
  match t_pc tk with
  | AtSleepTop | AtSleepEarly | AtSleepAfter =>
      match _handle (self w) with
      | Some s =>
          if Sleeper.done s (host w) then on_self request_cancel w
          else on_host (Sleeper.future_cancel (Sleeper.future s)) w
      | None => on_self request_cancel w
      end
  | _ => on_self request_cancel w
  end.

(** [Loop.cancel] *)
Definition cancel (w : World) : World :=
  if _can_be_cancelled (self w) then
    match _task (self w) with
    | Some tk => task_cancel tk w
    | None => w
    end
  else w.

(** [Loop.handle_interval], with the reading of the clock as [now]: the
    world it leaves and the exception it raises, if any. *)
Definition handle_interval (seconds minutes hours : option Q)
    (time : option time_arg) (now : datetime) (w : World)
  : World * option exn :=
  match configure seconds minutes hours time (self w) with
  | inl e => (w, Some e)
  | inr l1 =>
      let w1 := on_self (fun _ => l1) w in
      if is_running l1 && bool_decide (is_Some (_last_loop l1)) then
        match _next_sleep_time l1 now with
        | inl e => (w1, Some e)
        | inr dl =>
            let w2 := on_self (set_next_loop (Some dl)) w1 in
            match _handle (self w2) with
            | None => (w2, Some NoHandleAttr)
            | Some s =>
                if negb (Sleeper.done s (host w2)) then
                  let (s', el) := Sleeper.recalculate s dl now (host w2) in
                  (on_self (set_handle (Some s'))
                     (on_host (fun _ => el) w2), None)
                else (w2, None)
            end
        end
      else (w1, None)
  end.

(** An argument of [add_exception]. *)
Inductive exc_arg :=
| ArgClass (c : exc_class)  (* a subclass of BaseException *)
| ArgOtherClass             (* a class that is not *)
| ArgNotClass.              (* not a class *)

(** [Loop.add_exception] *)
Definition add_exception (args : list exc_arg) (l : t) : t :=
  fold_left
    (fun acc a =>
       match a with
       | ArgClass c =>
           set_whitelist (_whitelist_exceptions acc ++ [c]) acc
       | _ => acc
       end)
    args l.

(** [Loop.remove_exception] *)
Definition remove_exception (cs : list exc_class) (l : t) : t :=
  set_whitelist
    (List.filter (fun x => negb (existsb (exc_class_eqb x) cs))
       (_whitelist_exceptions l))
    l.

(** [Loop.reset_exceptions] *)
Definition reset_exceptions (l : t) : t :=
  set_whitelist [OSError; TimeoutError; ClientError] l.

(** *** Histories *)

(** What can happen to a loop: a call of its control surface, a step of
    its task, or the event loop reaching the deadline of a timer. *)
Inductive op :=
| CallStart
| CallStop
| CallCancel
| CallHandleInterval (seconds minutes hours : option Q)
    (time : option time_arg) (now : datetime)
| CallAddException (args : list exc_arg)
| CallRemoveException (cs : list exc_class)
| CallResetExceptions
| TaskStep (now : datetime) (out : body_outcome)
| TimerDue (h : nat).

(** The world after [o]; a call that raises leaves the world as it is at
    the [raise]. *)
Definition apply_op (o : op) (w : World) : World :=
  match o with
  | CallStart =>
      match start w with
      | inr (_, w') => w'
      | inl _ => w
      end
  | CallStop => stop w
  | CallCancel => cancel w
  | CallHandleInterval s m h tm now => fst (handle_interval s m h tm now w)
  | CallAddException args => on_self (add_exception args) w
  | CallRemoveException cs => on_self (remove_exception cs) w
  | CallResetExceptions => on_self reset_exceptions w
  | TaskStep now out => resume now out w
  | TimerDue h => on_host (Sleeper.run_handle h) w
  end.

(** The world after a history. *)
Definition run (ops : list op) (w : World) : World :=
  fold_left (fun acc o => apply_op o acc) ops w.

(** *** Binding to an owner *)

(** A stored time as the [datetime.time] it is. *)
Definition to_dtime (a : atime) : dtime :=
  {| t_tod := a_tod a; t_tzinfo := Some (a_off a) |}.



End Loop.

(** ** Reference definitions *)

Import Clock.

(** The next run in absolute-time mode as the specification words it: the
    first listed time that is not earlier than the time of day of [now] in
    that time's zone, on that day; failing that, the first listed time on
    the following day.  The list is [t0 :: rest]. *)
Definition not_earlier (now : datetime) (ts : atime) : bool :=
  a_tod (timetz (astimezone now (a_off ts))) <=? a_tod ts.

Definition on_day (day : Z) (ts : atime) : datetime :=
  astimezone (combine day ts) UTC.

Definition next_run_spec (t0 : atime) (rest : list atime) (now : datetime)
  : datetime :=
  match List.find (not_earlier now) (t0 :: rest) with
  | Some ts => on_day (date (astimezone now (a_off ts))) ts
  | None => on_day (date (astimezone now (a_off t0)) + 1) t0
  end.

(** A time of day and an instant in UTC, by hour. *)
Definition utc_time (h : Z) : atime := {| a_tod := h * HOUR; a_off := UTC |}.

Definition utc_at (day h : Z) : datetime :=
  {| dt_wall := day * DAY + h * HOUR; dt_off := UTC |}.

(** The invariant of a Sleeper that has neither fired nor been cancelled:
    its future is pending, its current handle is a scheduled registration
    for that future, and no other scheduled registration resolves it. *)
Definition live (s : Sleeper.t) (el : Sleeper.EventLoop) : Prop :=
  Sleeper.futures el !! Sleeper.future s = Some Sleeper.Pending /\
  (exists d,
      Sleeper.scheduled el !! Sleeper.handle s =
      Some {| Sleeper.th_delay := d;
              Sleeper.th_target := Sleeper.future s;
              Sleeper.th_state := Sleeper.Scheduled |}) /\
  Sleeper.pending_triggers (Sleeper.future s) el = 1%nat.

(** Every registration resolves a future that exists. *)
Definition targets_exist (el : Sleeper.EventLoop) : Prop :=
  Forall (fun th => (Sleeper.th_target th < length (Sleeper.futures el))%nat)
    (Sleeper.scheduled el).

(** What holds of the Sleeper of a loop in every world a constructed loop
    can reach: as long as it is not done, it is live. *)
Definition sleeper_ok (h : option Sleeper.t) (el : Sleeper.EventLoop)
  : Prop :=
  targets_exist el /\
  forall s, h = Some s -> Sleeper.done s el = false -> live s el.







(** Two loops used as examples: one that runs every second, one that runs
    daily at 09:00 and 17:00 UTC; and histories that bring the first into
    its first call of the body. *)
Definition every_second : Loop.t :=
  Loop.set_schedule (Some 1%Q) (Some 0%Q) (Some 0%Q) (Some 1%Q) None
    (Loop.blank None true).

Definition twice_daily : Loop.t :=
  Loop.set_schedule None None None None (Some [utc_time 9; utc_time 17])
    (Loop.blank None true).

Definition to_first_yield : list Loop.op :=
  [Loop.CallStart; Loop.TaskStep (utc_at 1 8) Loop.BodyReturns].

Definition to_first_body : list Loop.op :=
  to_first_yield ++ [Loop.TaskStep (utc_at 1 8) Loop.BodyReturns].

(** The history that brings the daily loop, started at 08:00, into its
    first call of the body, woken at 10:00; and an exception class that
    derives from [BaseException] directly, as KeyboardInterrupt does. *)
Definition to_first_daily_body : list Loop.op :=
  [Loop.CallStart; Loop.TaskStep (utc_at 1 8) Loop.BodyReturns;
   Loop.TimerDue 0; Loop.TaskStep (utc_at 1 10) Loop.BodyReturns].

Definition interrupt : exc_class := Custom 0 BaseException.

(** A loop that runs every second, once; 09:00 without a zone; and the
    call [handle_interval(time=time(9, 0))] (seconds, minutes and hours at
    their default 0) made while the first body runs. *)
Definition every_second_once : Loop.t :=
  Loop.set_schedule (Some 1%Q) (Some 0%Q) (Some 0%Q) (Some 1%Q) None
    (Loop.blank (Some 1) true).

Definition nine_naive : dtime := {| t_tod := 9 * HOUR; t_tzinfo := None |}.

Definition switch_to_nine : Loop.op :=
  Loop.CallHandleInterval (Some 0%Q) (Some 0%Q) (Some 0%Q)
    (Some (Loop.OneTime nine_naive)) (utc_at 1 8).

Definition body_returns : Loop.op :=
  Loop.TaskStep (utc_at 1 8) Loop.BodyReturns.




(** What holds of the run counter in every world a constructed loop can
    reach: while no task is inside the [try] block, the counter is 0 unless
    no Sleeper was ever created. *)
Definition outside_try (l : Loop.t) : Prop :=
  match Loop._task l with
  | Some tk =>
      match Loop.t_pc tk with
      | Loop.AtStart | Loop.AtYield | Loop.Done _ => True
      | _ => False
      end
  | None => True
  end.

Definition counter_reset (w : Loop.World) : Prop :=
  let l := Loop.self w in
  outside_try l -> Loop._handle l = None \/ Loop.loop_count l = 0.




(** The task will resume inside the [try] block. *)
Definition resumes_in_try (tk : Loop.Task) : Prop :=
  match Loop.t_pc tk with
  | Loop.AtSleepTop | Loop.AtSleepEarly | Loop.AtBody | Loop.AtBackoff
  | Loop.AtSleepAfter => True
  | Loop.AtYield => Loop.t_must_cancel tk = false
  | _ => False
  end.

(** *** Further reference definitions *)






(** The classes [add_exception] takes from its arguments, in order. *)
Definition accepted_classes (args : list Loop.exc_arg) : list exc_class :=
  List.flat_map
    (fun a => match a with Loop.ArgClass c => [c] | _ => [] end) args.

(** What the log of a world holds: the kinds of its entries, and how many
    entries of a kind there are. *)
Definition is_error_hook (e : Loop.effect) : bool :=
  match e with Loop.ErrorHook _ => true | _ => false end.

Definition is_body_call (e : Loop.effect) : bool :=
  match e with Loop.BodyCall => true | _ => false end.

Definition is_before_hook (e : Loop.effect) : bool :=
  match e with Loop.BeforeLoopHook => true | _ => false end.

Definition is_after_hook (e : Loop.effect) : bool :=
  match e with Loop.AfterLoopHook => true | _ => false end.

Definition calls (p : Loop.effect -> bool) (lg : list Loop.effect) : nat :=
  length (List.filter p lg).

(** An exception the [except Exception] clause takes. *)
Definition handled_as_error (eff : Loop.effect) : Prop :=
  match eff with
  | Loop.ErrorHook e =>
      issubclass (exn_class e) Exception = true /\
      issubclass (exn_class e) CancelledError = false
  | _ => True
  end.

(** The failed flag and the calls of the error hook go together. *)
Definition failure_logged (w : Loop.World) : Prop :=
  Loop.failed (Loop.self w) = existsb is_error_hook (Loop.log w) /\
  Forall handled_as_error (Loop.log w).

(** The task is between the before-loop hook and the [finally] block. *)
Definition inside_run (l : Loop.t) : bool :=
  match Loop._task l with
  | Some tk =>
      match Loop.t_pc tk with
      | Loop.AtStart | Loop.Done _ => false
      | _ => true
      end
  | None => false
  end.

(** The after-loop hook has been called at most as often as the
    before-loop hook, and less often while a task is inside its run. *)
Definition hooks_bracket (w : Loop.World) : Prop :=
  (calls is_after_hook (Loop.log w)
   + (if inside_run (Loop.self w) then 1 else 0)
   <= calls is_before_hook (Loop.log w))%nat.

(** A loop whose stop request was made before its task entered the [try]
    block and that has never created a Sleeper: the request is still set, no
    task is inside the [try] block or has returned, and the body has not
    been called. *)
Definition never_runs (w : Loop.World) : Prop :=
  Loop._should_stop (Loop.self w) = true /\
  Loop._handle (Loop.self w) = None /\
  calls is_body_call (Loop.log w) = 0%nat /\
  match Loop._task (Loop.self w) with
  | Some tk =>
      match Loop.t_pc tk with
      | Loop.AtStart | Loop.AtYield | Loop.Done (Loop.Raised _) => True
      | _ => False
      end
  | None => True
  end.







(** ** Properties of the schedule arithmetic *)

Lemma day_div (d r : Z) : 0 <= r < DAY -> (d * DAY + r) / DAY = d.
Proof.
  intros Hr. symmetry. apply (Z.div_unique_pos _ _ d r); [exact Hr | ring].
Qed.

Lemma day_mod (d r : Z) : 0 <= r < DAY -> (d * DAY + r) mod DAY = r.
Proof.
  intros Hr. symmetry. apply (Z.mod_unique_pos _ _ d r); [exact Hr | ring].
Qed.

Lemma date_next_day (x : Z) : (x + DAY) / DAY = x / DAY + 1.
Proof.
  replace (x + DAY) with (x + 1 * DAY) by ring.
  apply Z.div_add. unfold DAY. lia.
Qed.

(** The index loop and [find] pick the same element. *)
Lemma find_from_find (times : list atime) (now : datetime) (i : nat) :
  match Loop.find_from i times now with
  | Some j =>
      exists k ts, j = (i + k)%nat /\ times !! k = Some ts /\
                   List.find (not_earlier now) times = Some ts
  | None => List.find (not_earlier now) times = None
  end.
Proof.
  revert i. induction times as [|ts rest IH]; intros i; simpl.
  - reflexivity.
  - unfold time_geb, not_earlier at 1 3.
    destruct (a_tod (timetz (astimezone now (a_off ts))) <=? a_tod ts) eqn:E.
    + exists 0%nat, ts. repeat split. lia.
    + specialize (IH (S i)).
      destruct (Loop.find_from (S i) rest now) as [j|].
      * destruct IH as (k & ts' & -> & Hk & Hf).
        exists (S k), ts'. repeat split; [lia | exact Hk | exact Hf].
      * exact IH.
Qed.

Lemma next_sleep_time_absolute (l : Loop.t) (t0 : atime) (rest : list atime)
    (now : datetime) :
  Loop._sleep l = None ->
  Loop._time l = Some (t0 :: rest) ->
  Loop._next_sleep_time l now = inr (next_run_spec t0 rest now).
Proof.
  intros Hs Ht. unfold Loop._next_sleep_time, Loop._find_time_index.
  rewrite Hs, Ht. unfold next_run_spec.
  pose proof (find_from_find (t0 :: rest) now 0) as H.
  destruct (Loop.find_from 0 (t0 :: rest) now) as [j|].
  - destruct H as (k & ts & -> & Hk & Hf). rewrite Hf.
    simpl (0 + k)%nat. rewrite Hk. reflexivity.
  - rewrite H. unfold on_day, date at 1, add. simpl dt_wall.
    rewrite date_next_day. reflexivity.
Qed.

(** C1. In absolute-time mode the next run is the first listed time that is
    not earlier than [now] read in that time's zone, on that day, and
    otherwise the first listed time on the following day.  With the times
    09:00 and 17:00 UTC, 08:00 UTC gives 09:00 of the same day and 18:00 UTC
    gives 09:00 of the next day.  (The list need not even be sorted.) *)
Theorem absolute_next_run :
  (forall (l : Loop.t) (t0 : atime) (rest : list atime) (now : datetime),
      Loop._sleep l = None ->
      Loop._time l = Some (t0 :: rest) ->
      Loop._next_sleep_time l now = inr (next_run_spec t0 rest now)) /\
  (forall (l : Loop.t) (day : Z),
      Loop._sleep l = None ->
      Loop._time l = Some [utc_time 9; utc_time 17] ->
      Loop._next_sleep_time l (utc_at day 8) = inr (utc_at day 9) /\
      Loop._next_sleep_time l (utc_at day 18) = inr (utc_at (day + 1) 9)).
Proof.
  split.
  - exact next_sleep_time_absolute.
  - intros l day Hs Ht.
    rewrite !(next_sleep_time_absolute l _ _ _ Hs Ht).
    unfold next_run_spec, List.find, not_earlier, on_day, utc_at, utc_time,
      astimezone, timetz, combine, date, instant, UTC.
    cbn [a_tod a_off dt_wall dt_off].
    rewrite !Z.sub_0_r, !Z.add_0_r.
    rewrite !day_mod, !day_div by (unfold DAY, HOUR; lia).
    split.
    + replace (8 * HOUR <=? 9 * HOUR) with true by reflexivity.
      cbn [a_tod a_off].
      rewrite ?Z.sub_0_r, ?Z.add_0_r, ?day_div by (unfold DAY, HOUR; lia).
      reflexivity.
    + replace (18 * HOUR <=? 9 * HOUR) with false by reflexivity.
      replace (18 * HOUR <=? 17 * HOUR) with false by reflexivity.
      cbn [a_tod a_off].
      rewrite ?Z.sub_0_r, ?Z.add_0_r, ?day_div by (unfold DAY, HOUR; lia).
      reflexivity.
Qed.

Lemma absolute_next_run_witness :
  Loop._next_sleep_time
    (Loop.set_schedule None None None None
       (Some [utc_time 9; utc_time 17]) (Loop.blank None true))
    (utc_at 20000 12)
  = inr (next_run_spec (utc_time 9) [utc_time 17] (utc_at 20000 12)).
Proof. apply (proj1 absolute_next_run); reflexivity. Defined.

(** ** Properties of the countdown timer *)

Section SleeperFacts.
Import Sleeper.

Lemma count_app (f : nat) (l1 l2 : list TimerHandle) :
  length (List.filter (is_pending_for f) (l1 ++ l2)) =
  (length (List.filter (is_pending_for f) l1) +
   length (List.filter (is_pending_for f) l2))%nat.
Proof. rewrite List.filter_app, length_app. reflexivity. Qed.

(** Taking a scheduled registration for [f] off (by cancelling or by
    running it) lowers the count of [f] by one. *)
Lemma count_alter_off (f : nat) (g : TimerHandle -> TimerHandle)
    (l : list TimerHandle) (h : nat) (th : TimerHandle) :
  l !! h = Some th ->
  is_pending_for f th = true ->
  is_pending_for f (g th) = false ->
  S (length (List.filter (is_pending_for f) (alter g h l))) =
  length (List.filter (is_pending_for f) l).
Proof.
  revert h. induction l as [|x l IH]; intros [|h] Hl Hp Hg;
    simpl in Hl; try discriminate.
  - injection Hl as ->. simpl. rewrite Hp, Hg. reflexivity.
  - simpl. destruct (is_pending_for f x); simpl;
      rewrite <- (IH h Hl Hp Hg); reflexivity.
Qed.

(** Changing a registration that does not count for [f], into one that
    does not either, leaves the count of [f]. *)
Lemma count_alter_other (f : nat) (g : TimerHandle -> TimerHandle)
    (l : list TimerHandle) (h : nat) :
  (forall th, l !! h = Some th ->
              is_pending_for f th = false /\ is_pending_for f (g th) = false) ->
  length (List.filter (is_pending_for f) (alter g h l)) =
  length (List.filter (is_pending_for f) l).
Proof.
  revert h. induction l as [|x l IH]; intros [|h] Hl; simpl; try reflexivity.
  - destruct (Hl x eq_refl) as [-> ->]. reflexivity.
  - destruct (is_pending_for f x); simpl; [f_equal|]; exact (IH h Hl).
Qed.

Lemma count_fresh_target (f : nat) (l : list TimerHandle) :
  Forall (fun th => (th_target th < f)%nat) l ->
  length (List.filter (is_pending_for f) l) = 0%nat.
Proof.
  induction 1 as [|x l Hx _ IH]; simpl; [reflexivity|].
  unfold is_pending_for at 1.
  destruct (Nat.eqb_spec (th_target x) f) as [E|_]; [lia|]. exact IH.
Qed.

Lemma lookup_alter_same (g : TimerHandle -> TimerHandle)
    (l : list TimerHandle) (h : nat) (th : TimerHandle) :
  l !! h = Some th -> alter g h l !! h = Some (g th).
Proof. intros H. rewrite list_lookup_alter_eq, H. reflexivity. Qed.

(** [Sleeper.__init__] registers exactly one trigger, for a fresh pending
    future, with the remaining wait clamped at zero. *)
Lemma init_live (dt now : datetime) (el : EventLoop) :
  targets_exist el ->
  live (fst (init dt now el)) (snd (init dt now el)) /\
  scheduled (snd (init dt now el)) !! handle (fst (init dt now el)) =
  Some {| th_delay := Z.max (instant dt - instant now) 0;
          th_target := future (fst (init dt now el));
          th_state := Scheduled |}.
Proof.
  intros Hwf. unfold init, live, pending_triggers. simpl.
  assert (Hh : (scheduled el ++
                  [{| th_delay := remaining dt now;
                      th_target := length (futures el);
                      th_state := Scheduled |}]) !! length (scheduled el)
               = Some {| th_delay := remaining dt now;
                         th_target := length (futures el);
                         th_state := Scheduled |}).
  { rewrite lookup_app_r by lia. rewrite Nat.sub_diag. reflexivity. }
  repeat split.
  - rewrite lookup_app_r by lia. rewrite Nat.sub_diag. reflexivity.
  - eexists. exact Hh.
  - rewrite count_app, (count_fresh_target _ _ Hwf). simpl.
    unfold is_pending_for. simpl. rewrite Nat.eqb_refl. reflexivity.
  - exact Hh.
Qed.

(** [Sleeper.recalculate] on a live Sleeper. *)
Lemma recalculate_live (s : t) (dt now : datetime) (el : EventLoop) :
  live s el ->
  let s' := fst (recalculate s dt now el) in
  let el' := snd (recalculate s dt now el) in
  future s' = future s /\
  futures el' = futures el /\
  (exists d,
      scheduled el' !! handle s =
      Some {| th_delay := d; th_target := future s;
              th_state := Unscheduled |}) /\
  scheduled el' !! handle s' =
    Some {| th_delay := Z.max (instant dt - instant now) 0;
            th_target := future s; th_state := Scheduled |} /\
  live s' el'.
Proof.
  intros (Hf & (d & Hh) & Hc). unfold recalculate. simpl.
  pose proof (lookup_lt_Some _ _ _ Hh) as Hlt.
  assert (Hnew : (alter unschedule (handle s) (scheduled el) ++
                  [{| th_delay := remaining dt now; th_target := future s;
                      th_state := Scheduled |}])
                 !! length (alter unschedule (handle s) (scheduled el))
                 = Some {| th_delay := remaining dt now;
                           th_target := future s;
                           th_state := Scheduled |}).
  { rewrite lookup_app_r by lia. rewrite Nat.sub_diag. reflexivity. }
  repeat split.
  - exists d. rewrite lookup_app_l by (rewrite length_alter; exact Hlt).
    rewrite (lookup_alter_same _ _ _ _ Hh). reflexivity.
  - rewrite length_alter in *. exact Hnew.
  - exact Hf.
  - eexists. rewrite length_alter in *. exact Hnew.
  - unfold pending_triggers in *. simpl.
    rewrite count_app. simpl.
    assert (Hq : forall d', is_pending_for (future s)
                   {| th_delay := d'; th_target := future s;
                      th_state := Scheduled |} = true).
    { intros d'. unfold is_pending_for. simpl.
      rewrite Nat.eqb_refl. reflexivity. }
    rewrite (Hq (remaining dt now)). simpl.
    pose proof (count_alter_off (future s) unschedule _ _ _ Hh (Hq d)) as Ho.
    assert (Hu : is_pending_for (future s)
                   (unschedule {| th_delay := d; th_target := future s;
                                  th_state := Scheduled |}) = false).
    { unfold is_pending_for. simpl. apply andb_false_r. }
    specialize (Ho Hu). rewrite Hc in Ho. lia.
Qed.

(** Running the handle of a live Sleeper completes its future and leaves
    no trigger behind. *)
Lemma run_handle_live (s : t) (el : EventLoop) :
  live s el ->
  let el' := run_handle (handle s) el in
  futures el' !! future s = Some Finished /\
  pending_triggers (future s) el' = 0%nat /\
  callback_errors el' = callback_errors el.
Proof.
  intros (Hf & (d & Hh) & Hc). unfold run_handle. rewrite Hh. simpl.
  unfold set_result. simpl. rewrite Hf. simpl.
  pose proof (lookup_lt_Some _ _ _ Hf) as Hlt.
  repeat split.
  - apply list_lookup_insert_eq. exact Hlt.
  - unfold pending_triggers in *. simpl.
    assert (Hp : is_pending_for (future s)
                   {| th_delay := d; th_target := future s;
                      th_state := Scheduled |} = true).
    { unfold is_pending_for. simpl. rewrite Nat.eqb_refl. reflexivity. }
    pose proof (count_alter_off (future s)
                  (fun _ => mark_ran {| th_delay := d;
                                        th_target := future s;
                                        th_state := Scheduled |})
                  _ _ _ Hh Hp) as Ho.
    assert (Ha : alter (fun _ => mark_ran {| th_delay := d;
                                        th_target := future s;
                                        th_state := Scheduled |})
                   (handle s) (scheduled el)
                 = <[handle s := mark_ran {| th_delay := d;
                                        th_target := future s;
                                        th_state := Scheduled |}]>
                     (scheduled el)).
    { clear. generalize (handle s). induction (scheduled el) as [|x l IH];
        intros [|h]; simpl; try reflexivity. f_equal. apply IH. }
    rewrite Ha in Ho. rewrite Hc in Ho.
    assert (Hu : is_pending_for (future s)
                   (mark_ran {| th_delay := d; th_target := future s;
                                th_state := Scheduled |}) = false).
    { unfold is_pending_for. simpl. apply andb_false_r. }
    specialize (Ho Hu). lia.
Qed.

Lemma done_false_pending (s : t) (el : EventLoop) :
  done s el = false <-> futures el !! future s = Some Pending.
Proof.
  unfold done. destruct (futures el !! future s) as [[]|];
    split; intros H; first [reflexivity | discriminate].
Qed.

Lemma insert_as_alter (l : list TimerHandle) (h : nat) (x : TimerHandle) :
  <[h := x]> l = alter (fun _ => x) h l.
Proof.
  revert h. induction l as [|y l IH]; intros [|h]; simpl; try reflexivity.
  f_equal. apply IH.
Qed.

Lemma sleeper_ok_init (h : option t) (dt now : datetime) (el : EventLoop) :
  sleeper_ok h el ->
  sleeper_ok (Some (fst (init dt now el))) (snd (init dt now el)).
Proof.
  intros [Hwf _]. split.
  - unfold targets_exist, init. simpl. apply Forall_app. split.
    + eapply Forall_impl; [exact Hwf|]. intros th Hth. simpl in Hth.
      rewrite length_app. simpl. lia.
    + constructor; [|constructor]. simpl. rewrite length_app. simpl. lia.
  - intros s Hs _. injection Hs as <-. apply init_live. exact Hwf.
Qed.

Lemma sleeper_ok_recalculate (s : t) (dt now : datetime) (el : EventLoop) :
  sleeper_ok (Some s) el ->
  done s el = false ->
  sleeper_ok (Some (fst (recalculate s dt now el)))
    (snd (recalculate s dt now el)).
Proof.
  intros [Hwf Hlive] Hd. specialize (Hlive s eq_refl Hd).
  destruct (recalculate_live s dt now el Hlive) as (_ & _ & _ & _ & Hl').
  split.
  - destruct Hlive as (Hf & _ & _).
    pose proof (lookup_lt_Some _ _ _ Hf) as Hlt.
    unfold targets_exist, recalculate. simpl. apply Forall_app. split.
    + apply Forall_alter; [exact Hwf|]. intros th _ Hth. exact Hth.
    + constructor; [|constructor]. simpl. exact Hlt.
  - intros s0 Hs _. injection Hs as <-. exact Hl'.
Qed.

Lemma future_cancel_not_pending (f : nat) (el : EventLoop) :
  futures (future_cancel f el) !! f <> Some Pending.
Proof.
  unfold future_cancel.
  destruct (futures el !! f) as [[]|] eqn:E; simpl; try congruence.
  rewrite list_lookup_insert_eq by (eapply lookup_lt_Some; exact E).
  discriminate.
Qed.

Lemma targets_exist_future_cancel (f : nat) (el : EventLoop) :
  targets_exist el -> targets_exist (future_cancel f el).
Proof.
  unfold targets_exist, future_cancel. intros H.
  destruct (futures el !! f) as [[]|]; simpl; try exact H.
  rewrite length_insert. exact H.
Qed.

Lemma sleeper_ok_future_cancel (h : option t) (s : t) (el : EventLoop) :
  sleeper_ok h el ->
  sleeper_ok (Some s) (future_cancel (future s) el).
Proof.
  intros [Hwf _]. split.
  - apply targets_exist_future_cancel. exact Hwf.
  - intros s0 Hs Hd. injection Hs as <-. apply done_false_pending in Hd.
    destruct (future_cancel_not_pending _ _ Hd).
Qed.

Lemma sleeper_ok_cancel (h : option t) (s : t) (el : EventLoop) :
  sleeper_ok h el -> sleeper_ok (Some s) (cancel s el).
Proof.
  intros [Hwf _]. split.
  - unfold cancel, handle_cancel, targets_exist. simpl.
    apply Forall_alter; [apply targets_exist_future_cancel; exact Hwf|].
    intros th _ Hth. exact Hth.
  - intros s0 Hs Hd. injection Hs as <-. apply done_false_pending in Hd.
    unfold cancel, handle_cancel in Hd. simpl in Hd.
    destruct (future_cancel_not_pending _ _ Hd).
Qed.

Lemma sleeper_ok_run_handle (h : option t) (x : nat) (el : EventLoop) :
  sleeper_ok h el -> sleeper_ok h (run_handle x el).
Proof.
  intros [Hwf Hlive]. unfold run_handle.
  destruct (scheduled el !! x) as [th|] eqn:Ex; [|split; assumption].
  destruct (th_state th) eqn:Est; try (split; assumption).
  assert (Hwf' : Forall (fun t0 => (th_target t0 < length (futures el))%nat)
                   (<[x := mark_ran th]> (scheduled el))).
  { apply Forall_insert; [exact Hwf|]. simpl.
    eapply (proj1 (Forall_lookup _ _) Hwf). exact Ex. }
  unfold set_result. simpl.
  destruct (futures el !! th_target th) as [[]|] eqn:Ef; simpl.
  2-4: split; [exact Hwf'|];
       intros s Hs Hd; apply done_false_pending in Hd; simpl in Hd;
       assert (Hd0 : done s el = false) by (apply done_false_pending; exact Hd);
       destruct (Hlive s Hs Hd0) as (Hf & (d & Hh) & Hc);
       assert (Hne : th_target th <> future s) by congruence;
       assert (Hx : x <> handle s) by
         (intros ->; rewrite Hh in Ex; injection Ex as <-; apply Hne;
          reflexivity);
       (split; [exact Hf|]); (split;
         [exists d; simpl; rewrite list_lookup_insert_ne by exact Hx; exact Hh|]);
       unfold pending_triggers in *; simpl; rewrite insert_as_alter;
       rewrite count_alter_other; [exact Hc|];
       intros th' Hth'; rewrite Ex in Hth'; injection Hth' as <-;
       unfold is_pending_for; simpl;
       destruct (Nat.eqb_spec (th_target th) (future s)); [contradiction|];
       split; reflexivity.
  split.
  - unfold targets_exist. simpl. rewrite length_insert. exact Hwf'.
  - intros s Hs Hd. apply done_false_pending in Hd. simpl in Hd.
    assert (Hne : th_target th <> future s).
    { intros E. rewrite E in Hd.
      rewrite list_lookup_insert_eq in Hd
        by (rewrite <- E; eapply lookup_lt_Some; exact Ef).
      discriminate. }
    rewrite list_lookup_insert_ne in Hd by exact Hne.
    assert (Hd0 : done s el = false) by (apply done_false_pending; exact Hd).
    destruct (Hlive s Hs Hd0) as (Hf & (d & Hh) & Hc).
    assert (Hx : x <> handle s).
    { intros ->. rewrite Hh in Ex. injection Ex as <-. apply Hne.
      reflexivity. }
    split; [simpl; rewrite list_lookup_insert_ne by exact Hne; exact Hf|].
    split; [exists d; simpl; rewrite list_lookup_insert_ne by exact Hx;
            exact Hh|].
    unfold pending_triggers in *. simpl. rewrite insert_as_alter.
    rewrite count_alter_other; [exact Hc|].
    intros th' Hth'. rewrite Ex in Hth'. injection Hth' as <-.
    unfold is_pending_for. simpl.
    destruct (Nat.eqb_spec (th_target th) (future s)); [contradiction|].
    split; reflexivity.
Qed.

End SleeperFacts.

(** C7. On a Sleeper with its one trigger pending, [recalculate] cancels
    that trigger and registers exactly one new trigger, whose wait is the
    time left to the deadline or zero when the deadline has passed; the
    future stays the same and stays pending, exactly one trigger remains
    registered for it, and when that trigger runs the future completes once,
    without a second completion being attempted. *)
Theorem recalculate_single_trigger
    (s : Sleeper.t) (dt now : datetime) (el : Sleeper.EventLoop) :
  live s el ->
  let s' := fst (Sleeper.recalculate s dt now el) in
  let el' := snd (Sleeper.recalculate s dt now el) in
  let el'' := Sleeper.run_handle (Sleeper.handle s') el' in
  Sleeper.pending_triggers (Sleeper.future s) el' = 1%nat /\
  (exists d,
      Sleeper.scheduled el' !! Sleeper.handle s =
      Some {| Sleeper.th_delay := d; Sleeper.th_target := Sleeper.future s;
              Sleeper.th_state := Sleeper.Unscheduled |}) /\
  Sleeper.scheduled el' !! Sleeper.handle s' =
    Some {| Sleeper.th_delay := Z.max (instant dt - instant now) 0;
            Sleeper.th_target := Sleeper.future s;
            Sleeper.th_state := Sleeper.Scheduled |} /\
  (instant dt <= instant now ->
   Sleeper.scheduled el' !! Sleeper.handle s' =
     Some {| Sleeper.th_delay := 0;
             Sleeper.th_target := Sleeper.future s;
             Sleeper.th_state := Sleeper.Scheduled |}) /\
  Sleeper.future s' = Sleeper.future s /\
  Sleeper.wait s' el' = Some Sleeper.Pending /\
  live s' el' /\
  Sleeper.wait s' el'' = Some Sleeper.Finished /\
  Sleeper.pending_triggers (Sleeper.future s') el'' = 0%nat /\
  Sleeper.callback_errors el'' = Sleeper.callback_errors el.
Proof.
  intros Hlive s' el' el''.
  destruct (recalculate_live s dt now el Hlive)
    as (Hfut & Hfs & Hold & Hnew & Hlive').
  fold s' el' in Hfut, Hfs, Hold, Hnew, Hlive'.
  destruct (run_handle_live s' el' Hlive') as (Hdone & Hzero & Herr).
  fold el'' in Hdone, Hzero, Herr.
  destruct Hlive' as (Hpend & Hh' & Hone).
  split. { rewrite <- Hfut. exact Hone. }
  split. { exact Hold. }
  split. { exact Hnew. }
  split. { intros Hpast. rewrite Hnew. rewrite Z.max_r by lia. reflexivity. }
  split. { exact Hfut. }
  split. { exact Hpend. }
  split. { exact (conj Hpend (conj Hh' Hone)). }
  split. { exact Hdone. }
  split. { exact Hzero. }
  rewrite Herr. reflexivity.
Qed.

Lemma recalculate_single_trigger_witness :
  let s0 := fst (Sleeper.init (utc_at 1 9) (utc_at 1 8) Sleeper.empty_loop) in
  let el0 := snd (Sleeper.init (utc_at 1 9) (utc_at 1 8) Sleeper.empty_loop) in
  live s0 el0 /\
  Sleeper.pending_triggers (Sleeper.future s0)
    (snd (Sleeper.recalculate s0 (utc_at 1 7) (utc_at 1 8) el0)) = 1%nat.
Proof.
  intros s0 el0.
  assert (H : live s0 el0).
  { repeat split; try reflexivity. eexists. reflexivity. }
  split; [exact H|].
  exact (proj1 (recalculate_single_trigger s0 (utc_at 1 7) (utc_at 1 8) el0 H)).
Defined.

(** ** Properties of one step of the loop *)

(** Evaluate a step of the coroutine on a world whose attributes are
    variables, leaving arithmetic, the timer and the class tests folded. *)
Ltac eval_step :=
  cbv beta iota zeta delta
    -[Clock.leb Clock.add Clock.timedelta_seconds Clock.instant
      Clock.astimezone Clock.combine Clock.date Clock.timetz
      Loop._next_sleep_time existsb issubclass
      Sleeper.init Sleeper.cancel Sleeper.wait Sleeper.done
      Sleeper.recalculate Sleeper.future_cancel Sleeper.run_handle
      Z.add Z.sub Z.eqb Z.leb Z.ltb Z.le Z.lt Z.max app is_Some bool_decide
      sleeper_ok].

(** Case analysis on what the code tests, until no test is left. *)
Ltac on_tests :=
  repeat (cbv beta iota;
          match goal with
          | |- context [match ?x with _ => _ end] =>
              lazymatch x with
              | context [match _ with _ => _ end] => fail
              | _ => destruct x eqn:?
              end
          end).

Ltac open_world w :=
  destruct w as [[] ? ?]; cbn in * |-; subst.




(** A failure, an instance of [Exception], is never a cancellation. *)
Lemma exception_not_cancelled (c : exc_class) :
  issubclass c Exception = true -> issubclass c CancelledError = false.
Proof.
  induction c; cbn; try reflexivity; try discriminate.
  intros H. apply IHc. exact H.
Qed.



(** C5 as stated does not hold: an exception of the body that derives from
    [BaseException] directly is neither whitelisted nor a cancellation, yet
    it passes [except Exception]: the failed flag stays unset, the error
    hook is not called, and the task ends with that exception. *)
Lemma fatal_failure_any_class_fails :
  let e := BodyExc interrupt 0 in
  let w := Loop.run to_first_daily_body (Loop.new_world twice_daily) in
  let w' := Loop.resume (utc_at 1 10) (Loop.BodyRaises interrupt 0) w in
  (Loop.fetch_task (Loop.self w)
   = Some {| Loop.t_pc := Loop.AtBody; Loop.t_must_cancel := false |} /\
   Loop.whitelisted (Loop.self w) e = false /\
   issubclass (exn_class e) CancelledError = false) /\
  Loop.failed (Loop.self w') = false /\
  ~ List.In (Loop.ErrorHook e) (Loop.log w') /\
  Loop.fetch_task (Loop.self w')
  = Some {| Loop.t_pc := Loop.Done (Loop.Raised e);
            Loop.t_must_cancel := false |}.
Proof.
  vm_compute. repeat split.
  intros H. repeat (destruct H as [H | H]; [discriminate H|]). exact H.
Qed.

(** C5, amended. When the body raises a failure that is an instance of
    [Exception] (hence not a cancellation) and that is not whitelisted, or
    that is whitelisted while reconnect is off, the step ends the task, sets
    the failed flag, calls the error hook with that failure and then the
    after-loop hook, and the task does not end with the failure: it returns,
    or ends with the AttributeError of the unset [_handle]. *)
Theorem fatal_failure_terminates
    (w : Loop.World) (tk : Loop.Task) (c : exc_class) (i : nat)
    (now : datetime) :
  Loop._task (Loop.self w) = Some tk ->
  Loop.t_pc tk = Loop.AtBody ->
  Loop.t_must_cancel tk = false ->
  issubclass c Exception = true ->
  issubclass c CancelledError = false ->
  Loop.whitelisted (Loop.self w) (BodyExc c i) = false \/
  Loop.reconnect (Loop.self w) = false ->
  let w' := Loop.resume now (Loop.BodyRaises c i) w in
  exists r,
    Loop._task (Loop.self w')
    = Some {| Loop.t_pc := Loop.Done r; Loop.t_must_cancel := false |} /\
    r = match Loop._handle (Loop.self w) with
        | Some _ => Loop.Returned
        | None => Loop.Raised NoHandleAttr
        end /\
    r <> Loop.Raised (BodyExc c i) /\
    Loop.is_running (Loop.self w') = false /\
    Loop.failed (Loop.self w') = true /\
    Loop.log w'
    = Loop.log w ++ [Loop.ErrorHook (BodyExc c i); Loop.AfterLoopHook].
Proof.
  intros Htk Hpc Hmc Hexc Hcan Hfatal w'. subst w'.
  destruct tk as [p mc]. cbn in Hpc, Hmc. subst p mc.
  open_world w. eval_step. rewrite Hexc, Hcan.
  destruct Hfatal as [Hw | Hr].
  - rewrite Hw. on_tests; eexists; cbn; rewrite <- ?app_assoc;
      repeat split; try reflexivity; discriminate.
  - cbn in Hr. subst. on_tests; eexists; cbn; rewrite <- ?app_assoc;
      repeat split; try reflexivity; discriminate.
Qed.

Lemma fatal_failure_terminates_witness :
  let w := Loop.run to_first_body (Loop.new_world every_second) in
  let w' := Loop.resume (utc_at 1 9) (Loop.BodyRaises ValueError 0) w in
  Loop.failed (Loop.self w') = true.
Proof.
  intros w w'.
  destruct (fatal_failure_terminates w
              {| Loop.t_pc := Loop.AtBody; Loop.t_must_cancel := false |}
              ValueError 0 (utc_at 1 9)
              eq_refl eq_refl eq_refl eq_refl eq_refl
              (or_introl eq_refl))
    as (r & _ & _ & _ & _ & Hfailed & _).
  exact Hfailed.
Defined.

(** ** Properties of the validation *)


Lemma collect_times_error (items : list Loop.pyval) (i : nat) (e : exn) :
  Loop.collect_times i items = inl e -> is_config_error e = true.
Proof.
  revert i. induction items as [|[tm|] rest IH]; intros i; simpl.
  - discriminate.
  - specialize (IH (S i)).
    destruct (Loop.collect_times (S i) rest); [|discriminate].
    intros H. injection H as <-. apply IH. reflexivity.
  - intros H. injection H as <-. reflexivity.
Qed.


Lemma sort_static_times_error (ta : Loop.time_arg) (e : exn) :
  Loop._sort_static_times ta = inl e -> is_config_error e = true.
Proof.
  destruct ta as [tm|items|]; simpl.
  - discriminate.
  - destruct items as [|x rest]; [intros H; injection H as <-; reflexivity|].
    pose proof (collect_times_error (x :: rest) 0) as Hc.
    destruct (Loop.collect_times 0 (x :: rest)) as [e'|out]; [|discriminate].
    intros H. injection H as <-. apply Hc. reflexivity.
  - intros H. injection H as <-. reflexivity.
Qed.


Lemma configure_error (seconds minutes hours : option Q)
    (time : option Loop.time_arg) (l : Loop.t) (e : exn) :
  Loop.configure seconds minutes hours time l = inl e ->
  is_config_error e = true.
Proof.
  unfold Loop.configure. destruct time as [ta|].
  - destruct (Loop.truthy seconds || Loop.truthy minutes || Loop.truthy hours).
    + intros H. injection H as <-. reflexivity.
    + pose proof (sort_static_times_error ta) as Hs.
      destruct (Loop._sort_static_times ta); [|discriminate].
      intros H. injection H as <-. apply Hs. reflexivity.
  - destruct (Qle_bool (Loop.total_sleep seconds minutes hours) 0);
      [|discriminate].
    intros H. injection H as <-. reflexivity.
Qed.

(** The deadline computation raises no configuration error. *)
Lemma next_sleep_time_error (l : Loop.t) (now : datetime) (e : exn) :
  Loop._next_sleep_time l now = inl e -> is_config_error e = false.
Proof.
  unfold Loop._next_sleep_time.
  destruct (Loop._sleep l); [destruct (Loop._last_loop l)|];
    [discriminate | intros H; injection H as <-; reflexivity |].
  destruct (Loop._find_time_index l now); destruct (Loop._time l) as [[|? ?]|];
    simpl; try discriminate;
    try (intros H; injection H as <-; reflexivity).
  all: destruct (_ !! _); try discriminate;
    intros H; injection H as <-; reflexivity.
Qed.






(** ** Properties of the life cycle *)

(** [configure] touches the schedule attributes only. *)
Lemma configure_shape (seconds minutes hours : option Q)
    (time : option Loop.time_arg) (l l1 : Loop.t) :
  Loop.configure seconds minutes hours time l = inr l1 ->
  exists a b c d e, l1 = Loop.set_schedule a b c d e l.
Proof.
  unfold Loop.configure. destruct time as [ta|].
  - destruct (_ || _); [discriminate|].
    destruct (Loop._sort_static_times ta); [discriminate|].
    intros H. injection H as <-. eauto 10.
  - destruct (Qle_bool _ _); [discriminate|].
    intros H. injection H as <-. eauto 10.
Qed.

(** On a loop that is not running, as in [__init__], [handle_interval]
    is its first part. *)
Lemma handle_interval_not_running (seconds minutes hours : option Q)
    (time : option Loop.time_arg) (now : datetime) (w : Loop.World) :
  Loop.is_running (Loop.self w) = false ->
  Loop.handle_interval seconds minutes hours time now w =
  match Loop.configure seconds minutes hours time (Loop.self w) with
  | inl e => (w, Some e)
  | inr l1 => (Loop.on_self (fun _ => l1) w, None)
  end.
Proof.
  intros Hr. unfold Loop.handle_interval.
  destruct (Loop.configure seconds minutes hours time (Loop.self w))
    as [e|l1] eqn:Ec; [reflexivity|].
  destruct (configure_shape _ _ _ _ _ _ Ec) as (a & b & c & d & e & ->).
  destruct w as [[] ? ?]. unfold Loop.is_running in *. cbn in Hr |- *.
  rewrite Hr. reflexivity.
Qed.

(** [add_exception] touches the whitelist only. *)
Lemma add_exception_shape (args : list Loop.exc_arg) (l : Loop.t) :
  exists wl, Loop.add_exception args l = Loop.set_whitelist wl l.
Proof.
  unfold Loop.add_exception. revert l.
  induction args as [|a args IH]; intros l; simpl.
  - exists (Loop._whitelist_exceptions l). destruct l. reflexivity.
  - destruct a as [c| |]; try apply IH.
    destruct (IH (Loop.set_whitelist (Loop._whitelist_exceptions l ++ [c]) l))
      as [wl ->].
    exists wl. reflexivity.
Qed.

(** No operation clears the failed flag. *)
Lemma apply_op_keeps_failed (o : Loop.op) (w : Loop.World) :
  Loop.failed (Loop.self w) = true ->
  Loop.failed (Loop.self (Loop.apply_op o w)) = true.
Proof.
  intros Hf. destruct o; unfold Loop.apply_op.
  - open_world w. eval_step. on_tests; reflexivity.
  - open_world w. eval_step. on_tests; reflexivity.
  - open_world w. eval_step. on_tests; reflexivity.
  - unfold Loop.handle_interval.
    destruct (Loop.configure seconds minutes hours time (Loop.self w))
      as [e|l1] eqn:Ec; [exact Hf|].
    destruct (configure_shape _ _ _ _ _ _ Ec) as (a & b & c & d & e & ->).
    clear Ec. open_world w. eval_step. on_tests; reflexivity.
  - destruct (add_exception_shape args (Loop.self w)) as [wl E].
    unfold Loop.on_self. cbn. rewrite E. open_world w. reflexivity.
  - open_world w. reflexivity.
  - open_world w. reflexivity.
  - destruct (Loop._task (Loop.self w)) as [[p mc]|] eqn:Et.
    + open_world w.
      destruct p; eval_step; on_tests; reflexivity.
    + open_world w. reflexivity.
  - open_world w. reflexivity.
Qed.

(** C10. Once the failed flag is set, every history of calls of the control
    surface (start, stop, cancel, interval and whitelist changes), of steps
    of the task, whatever the body does, and of timer events leaves it set:
    [failed] keeps returning true. *)
Theorem failed_is_sticky (ops : list Loop.op) (w : Loop.World) :
  Loop.failed (Loop.self w) = true ->
  Loop.failed (Loop.self (Loop.run ops w)) = true.
Proof.
  unfold Loop.run. revert w.
  induction ops as [|o ops IH]; intros w Hf; simpl.
  - exact Hf.
  - apply IH. apply apply_op_keeps_failed. exact Hf.
Qed.

Lemma failed_is_sticky_witness :
  let w := Loop.run (to_first_body ++
                     [Loop.TaskStep (utc_at 1 9) (Loop.BodyRaises ValueError 0)])
             (Loop.new_world every_second) in
  Loop.failed (Loop.self w) = true /\
  Loop.failed
    (Loop.self (Loop.run (Loop.CallStart :: to_first_body ++
                            [Loop.CallStop; body_returns; Loop.CallCancel]) w))
  = true.
Proof.
  intros w.
  assert (H : Loop.failed (Loop.self w) = true) by reflexivity.
  split; [exact H|].
  exact (failed_is_sticky _ w H).
Defined.

(** C3, on the code. A loop in relative-interval mode that is asked to stop
    while its first body runs ends without ever having created a Sleeper:
    the after-loop hook is called, reading [_handle] then raises
    AttributeError, and the stop request is left set.  Cancelled at the same
    point, the will-cancel flag is left set and the loop can no longer be
    cancelled.  Cancelled at the zero-delay sleep before the [try], the task
    ends without the after-loop hook being called. *)
Theorem cleanup_skipped_without_sleeper :
  let stopped :=
    Loop.run (to_first_body ++ [Loop.CallStop; body_returns])
      (Loop.new_world every_second) in
  let cancelled :=
    Loop.run (to_first_body ++ [Loop.CallCancel; body_returns])
      (Loop.new_world every_second) in
  let cancelled_early :=
    Loop.run (to_first_yield ++ [Loop.CallCancel; body_returns])
      (Loop.new_world every_second) in
  (Loop.fetch_task (Loop.self stopped)
   = Some {| Loop.t_pc := Loop.Done (Loop.Raised NoHandleAttr);
             Loop.t_must_cancel := false |} /\
   Loop.log stopped
   = [Loop.BeforeLoopHook; Loop.AsyncSleep 0; Loop.BodyCall;
      Loop.AfterLoopHook] /\
   Loop._should_stop (Loop.self stopped) = true) /\
  (Loop.is_running (Loop.self cancelled) = false /\
   Loop.is_being_cancelled (Loop.self cancelled) = true /\
   Loop._can_be_cancelled (Loop.self (Loop.apply_op Loop.CallStart cancelled))
   = false) /\
  (Loop.is_running (Loop.self cancelled_early) = false /\
   Loop.log cancelled_early = [Loop.BeforeLoopHook; Loop.AsyncSleep 0]).
Proof. vm_compute. repeat split; reflexivity. Qed.

(** What the [finally] block does once a Sleeper exists: the after-loop
    hook is called, the Sleeper is cancelled and the three attributes are
    back at their initial values. *)
Lemma finally_with_sleeper (r : Loop.task_result) (w : Loop.World)
    (s : Sleeper.t) :
  Loop._handle (Loop.self w) = Some s ->
  let w' := Loop.finally_ r w in
  Loop.log w' = Loop.log w ++ [Loop.AfterLoopHook] /\
  Loop.host w' = Sleeper.cancel s (Loop.host w) /\
  Loop._will_cancel (Loop.self w') = false /\
  Loop.loop_count (Loop.self w') = 0 /\
  Loop._should_stop (Loop.self w') = false.
Proof.
  intros Hh. open_world w. eval_step. on_tests; repeat split.
Qed.

(** C9, on the code. A loop bounded to one run whose schedule is switched to
    a time of day while its first body runs: [handle_interval] raises
    AttributeError after replacing the schedule, the body returns, the run
    counter reaches the bound, and the [finally] block raises before it
    resets the counter.  The task is over, [start] succeeds, and the new
    task begins with the run counter at 1. *)
Theorem restart_with_stale_counter :
  let w := Loop.run (to_first_body ++ [switch_to_nine; body_returns])
             (Loop.new_world every_second_once) in
  Loop.is_running (Loop.self w) = false /\
  exists tk w',
    Loop.start w = inr (tk, w') /\
    Loop.fetch_task (Loop.self w') = Some tk /\
    Loop.t_pc tk = Loop.AtStart /\
    Loop.loop_count (Loop.self w') = 1.
Proof.
  vm_compute. split; [reflexivity|].
  eexists. eexists. repeat split; reflexivity.
Qed.

(** [start] on a running loop raises and changes nothing; on a loop that is
    not running it installs a new task, not yet run, and leaves the run
    counter as it is. *)
Lemma start_cases (w : Loop.World) :
  (Loop.is_running (Loop.self w) = true ->
   Loop.start w = inl AlreadyRunning /\ Loop.apply_op Loop.CallStart w = w) /\
  (Loop.is_running (Loop.self w) = false ->
   exists tk w',
     Loop.start w = inr (tk, w') /\
     Loop.fetch_task (Loop.self w') = Some tk /\
     Loop.t_pc tk = Loop.AtStart /\
     Loop.is_running (Loop.self w') = true /\
     Loop.loop_count (Loop.self w') = Loop.loop_count (Loop.self w)).
Proof.
  split; intros Hr.
  - unfold Loop.apply_op, Loop.start. rewrite Hr. split; reflexivity.
  - unfold Loop.start. rewrite Hr. eexists. eexists.
    split; [reflexivity|]. open_world w. repeat split.
Qed.

(** ** Properties of the runtime change of schedule *)







Lemma live_not_done (s : Sleeper.t) (el : Sleeper.EventLoop) :
  live s el -> Sleeper.done s el = false.
Proof. intros (Hf & _). unfold Sleeper.done. rewrite Hf. reflexivity. Qed.









Ltac close_counter :=
  cbn in *; intros;
  try solve [ auto | discriminate | contradiction
            | match goal with H : True -> _ |- _ => exact (H I) end
            | match goal with
              | H : True -> _ \/ _ |- _ =>
                  destruct (H I) as [?|?]; [discriminate | auto]
              end ].

(** Every operation keeps what is known of the run counter. *)
Lemma apply_op_counter (o : Loop.op) (w : Loop.World) :
  counter_reset w -> counter_reset (Loop.apply_op o w).
Proof.
  unfold counter_reset, outside_try, Loop.loop_count.
  intros Hinv. destruct o; unfold Loop.apply_op.
  - open_world w. eval_step. on_tests; close_counter.
  - open_world w. eval_step. on_tests; close_counter.
  - open_world w. eval_step. on_tests; close_counter.
  - unfold Loop.handle_interval.
    destruct (Loop.configure seconds minutes hours time (Loop.self w))
      as [e|l1] eqn:Ec; [exact Hinv|].
    destruct (configure_shape _ _ _ _ _ _ Ec) as (a & b & c & d & e & ->).
    clear Ec. open_world w. eval_step. on_tests; close_counter.
  - destruct (add_exception_shape args (Loop.self w)) as [wl E].
    unfold Loop.on_self. cbn. rewrite E. open_world w. exact Hinv.
  - open_world w. exact Hinv.
  - open_world w. exact Hinv.
  - destruct (Loop._task (Loop.self w)) as [[p mc]|] eqn:Et.
    + open_world w.
      destruct p; eval_step; on_tests; close_counter.
    + open_world w. exact Hinv.
  - open_world w. exact Hinv.
Qed.

Lemma run_counter (ops : list Loop.op) (w : Loop.World) :
  counter_reset w -> counter_reset (Loop.run ops w).
Proof.
  unfold Loop.run. revert w.
  induction ops as [|o ops IH]; intros w Hinv; simpl; [exact Hinv|].
  apply IH. apply apply_op_counter. exact Hinv.
Qed.

(** The part of C9 that holds on the code: in every world a constructed
    loop reaches in which a Sleeper has been created, a [start] that
    succeeds begins with the run counter at 0. *)
Lemma start_counter_zero_with_sleeper
    (seconds minutes hours : option Q) (time : option Loop.time_arg)
    (count : option Z) (reconnect : bool) (l0 : Loop.t)
    (ops : list Loop.op) (s : Sleeper.t) (tk : Loop.Task) (w' : Loop.World) :
  Loop.init seconds minutes hours time count reconnect = inr l0 ->
  let w := Loop.run ops (Loop.new_world l0) in
  Loop._handle (Loop.self w) = Some s ->
  Loop.start w = inr (tk, w') ->
  Loop.loop_count (Loop.self w') = 0.
Proof.
  intros Hinit w Hh Hstart. subst w.
  assert (H0 : counter_reset (Loop.new_world l0)).
  { unfold Loop.init in Hinit.
    destruct (match count with Some c => c <=? 0 | None => false end);
      [discriminate|].
    destruct (configure_shape _ _ _ _ _ _ Hinit) as (a & b & c & d & e & ->).
    unfold counter_reset. cbn. auto. }
  pose proof (run_counter ops _ H0) as Hinv.
  set (w := Loop.run ops (Loop.new_world l0)) in *.
  unfold Loop.start in Hstart.
  destruct (Loop.is_running (Loop.self w)) eqn:Hr; [discriminate|].
  injection Hstart as _ <-.
  unfold counter_reset, outside_try in Hinv. rewrite Hh in Hinv.
  unfold Loop.is_running, Loop.task_done in Hr.
  destruct w as [l el lg]. destruct l. cbn in *.
  destruct _task as [[p mc]|]; [destruct p; try discriminate|];
    destruct (Hinv I) as [H | H]; first [discriminate | exact H].
Qed.

(** The part of C3 that holds on the code: when a Sleeper has been created,
    every step that ends the task from inside the [try] block calls the
    after-loop hook last, cancels the Sleeper and leaves the run counter,
    the will-cancel flag and the stop request at their initial values. *)
Lemma termination_with_sleeper (w : Loop.World) (now : datetime)
    (out : Loop.body_outcome) (tk tk' : Loop.Task) (r : Loop.task_result)
    (s : Sleeper.t) :
  Loop._task (Loop.self w) = Some tk ->
  resumes_in_try tk ->
  Loop._handle (Loop.self w) = Some s ->
  Loop._task (Loop.self (Loop.resume now out w)) = Some tk' ->
  Loop.t_pc tk' = Loop.Done r ->
  let w' := Loop.resume now out w in
  (exists before, Loop.log w' = before ++ [Loop.AfterLoopHook]) /\
  Loop.host w' = Sleeper.cancel s (Loop.host w) /\
  Loop._will_cancel (Loop.self w') = false /\
  Loop.loop_count (Loop.self w') = 0 /\
  Loop._should_stop (Loop.self w') = false.
Proof.
  intros Htk Hin Hh. destruct tk as [p mc]. unfold resumes_in_try in Hin.
  open_world w. revert tk' r.
  destruct p; try contradiction; subst; eval_step; on_tests; cbv beta iota;
    intros tk1 r1 H1 H2; injection H1 as <-; cbn in H2;
    try discriminate;
    (split; [eexists; first [reflexivity
                            | rewrite <- app_assoc; reflexivity]|]);
    repeat split.
Qed.

Ltac close_sleeper :=
  first
    [ assumption
    | eapply sleeper_ok_cancel; eassumption
    | eapply sleeper_ok_future_cancel; eassumption
    | eapply sleeper_ok_run_handle; eassumption
    | match goal with
      | Hi : Sleeper.init ?dt ?now ?el = (?s, ?e), Hk : sleeper_ok _ ?el
        |- sleeper_ok (Some ?s) ?e =>
          let K := fresh in
          pose proof (sleeper_ok_init _ dt now el Hk) as K;
          rewrite Hi in K; exact K
      | Hr : Sleeper.recalculate ?s ?dt ?now ?el = (?s', ?e),
        Hk : sleeper_ok (Some ?s) ?el, Hd : Sleeper.done ?s ?el = false
        |- sleeper_ok (Some ?s') ?e =>
          let K := fresh in
          pose proof (sleeper_ok_recalculate s dt now el Hk Hd) as K;
          rewrite Hr in K; exact K
      end ].

(** Every operation keeps the Sleeper of the loop live until it is done. *)
Lemma apply_op_sleeper (o : Loop.op) (w : Loop.World) :
  sleeper_ok (Loop._handle (Loop.self w)) (Loop.host w) ->
  sleeper_ok (Loop._handle (Loop.self (Loop.apply_op o w)))
    (Loop.host (Loop.apply_op o w)).
Proof.
  intros Hinv. destruct o; unfold Loop.apply_op.
  - open_world w. eval_step. on_tests; close_sleeper.
  - open_world w. eval_step. on_tests; close_sleeper.
  - open_world w. eval_step. on_tests; close_sleeper.
  - unfold Loop.handle_interval.
    destruct (Loop.configure seconds minutes hours time (Loop.self w))
      as [e|l1] eqn:Ec; [exact Hinv|].
    destruct (configure_shape _ _ _ _ _ _ Ec) as (a & b & c & d & e & ->).
    clear Ec. open_world w. eval_step. on_tests; close_sleeper.
  - destruct (add_exception_shape args (Loop.self w)) as [wl E].
    unfold Loop.on_self. cbn. rewrite E. open_world w. exact Hinv.
  - open_world w. exact Hinv.
  - open_world w. exact Hinv.
  - destruct (Loop._task (Loop.self w)) as [[p mc]|] eqn:Et.
    + open_world w.
      destruct p; eval_step; on_tests; close_sleeper.
    + open_world w. exact Hinv.
  - open_world w. apply sleeper_ok_run_handle. exact Hinv.
Qed.

Lemma run_sleeper (ops : list Loop.op) (w : Loop.World) :
  sleeper_ok (Loop._handle (Loop.self w)) (Loop.host w) ->
  sleeper_ok (Loop._handle (Loop.self (Loop.run ops w)))
    (Loop.host (Loop.run ops w)).
Proof.
  unfold Loop.run. revert w.
  induction ops as [|o ops IH]; intros w Hinv; simpl; [exact Hinv|].
  apply IH. apply apply_op_sleeper. exact Hinv.
Qed.



(** ** The deadline in relative-interval mode, over histories *)







(** ** A whitelisted failure, over histories *)



(** ** The list of times kept by [_sort_static_times] *)









(** ** The configuration over histories, and the copy made by [__get__] *)


















(** ** A rejected change of schedule *)

(** X4. When [handle_interval] raises, either the error is one of the
    configuration errors, raised by the validation before any attribute is
    assigned, and the loop and its timers are exactly as before the call; or
    it is another error, raised on a running loop after the validation has
    passed, and the new schedule is already in place. *)
Theorem handle_interval_rejection_is_atomic
    (seconds minutes hours : option Q) (time : option Loop.time_arg)
    (now : datetime) (w w' : Loop.World) (e : exn) :
  Loop.handle_interval seconds minutes hours time now w = (w', Some e) ->
  (is_config_error e = true /\ w' = w /\
   Loop.configure seconds minutes hours time (Loop.self w) = inl e) \/
  (is_config_error e = false /\
   Loop.is_running (Loop.self w) = true /\
   exists l1,
     Loop.configure seconds minutes hours time (Loop.self w) = inr l1 /\
     Loop._seconds (Loop.self w') = Loop._seconds l1 /\
     Loop._minutes (Loop.self w') = Loop._minutes l1 /\
     Loop._hours (Loop.self w') = Loop._hours l1 /\
     Loop._sleep (Loop.self w') = Loop._sleep l1 /\
     Loop._time (Loop.self w') = Loop._time l1).
Proof.
  unfold Loop.handle_interval.
  destruct (Loop.configure seconds minutes hours time (Loop.self w))
    as [e1|l1] eqn:Ec.
  - intros H. injection H as <- <-. left.
    split; [exact (configure_error _ _ _ _ _ _ Ec)|]. split; reflexivity.
  - intros H. right.
    destruct (configure_shape _ _ _ _ _ _ Ec) as (a & b & c & d & t1 & El1).
    assert (Hrun : Loop.is_running l1 = Loop.is_running (Loop.self w)).
    { subst l1. destruct w as [[] ? ?]. reflexivity. }
    destruct (Loop.is_running l1 && bool_decide (is_Some (Loop._last_loop l1)))
      eqn:Eb; [|discriminate].
    apply andb_prop in Eb. destruct Eb as [Er _]. rewrite Hrun in Er.
    destruct (Loop._next_sleep_time l1 now) as [e2|dl] eqn:En.
    + injection H as <- <-.
      split; [exact (next_sleep_time_error _ _ _ En)|].
      split; [exact Er|]. exists l1. repeat split.
    + cbv zeta in H. cbn [Loop.on_self Loop.self Loop.host] in H.
      destruct l1. cbn in H.
      destruct _handle as [s|].
      * destruct (negb (Sleeper.done s (Loop.host w)));
          [destruct (Sleeper.recalculate s dl now (Loop.host w))|];
          discriminate.
      * injection H as <- <-. split; [reflexivity|].
        split; [exact Er|]. eexists. split; [reflexivity|]. repeat split.
Qed.

Lemma handle_interval_rejection_is_atomic_witness :
  let w := Loop.run to_first_body (Loop.new_world every_second) in
  (is_config_error SleepNotPositive = true /\ w = w /\
   Loop.configure (Some 0%Q) None None None (Loop.self w)
   = inl SleepNotPositive) \/
  (is_config_error SleepNotPositive = false /\
   Loop.is_running (Loop.self w) = true /\
   exists l1,
     Loop.configure (Some 0%Q) None None None (Loop.self w) = inr l1 /\
     Loop._seconds (Loop.self w) = Loop._seconds l1 /\
     Loop._minutes (Loop.self w) = Loop._minutes l1 /\
     Loop._hours (Loop.self w) = Loop._hours l1 /\
     Loop._sleep (Loop.self w) = Loop._sleep l1 /\
     Loop._time (Loop.self w) = Loop._time l1).
Proof.
  intros w.
  exact (handle_interval_rejection_is_atomic (Some 0%Q) None None None
           (utc_at 1 8) w w SleepNotPositive eq_refl).
Defined.

(** ** The whitelist *)

Lemma exc_class_eqb_eq (c d : exc_class) :
  exc_class_eqb c d = true <-> c = d.
Proof.
  revert d. induction c; intros d; destruct d; simpl;
    try (split; [discriminate | intros H; discriminate H]);
    try (split; reflexivity).
  rewrite andb_true_iff, Nat.eqb_eq, IHc.
  split; [intros [-> ->]; reflexivity | intros H; injection H; auto].
Qed.

Lemma issubclass_refl (c : exc_class) : issubclass c c = true.
Proof.
  destruct c; simpl; try reflexivity.
  rewrite Nat.eqb_refl. simpl.
  rewrite (proj2 (exc_class_eqb_eq c c) eq_refl). reflexivity.
Qed.

Lemma add_exception_whitelist (args : list Loop.exc_arg) (l : Loop.t) :
  Loop.add_exception args l
  = Loop.set_whitelist
      (Loop._whitelist_exceptions l ++ accepted_classes args) l.
Proof.
  unfold Loop.add_exception. revert l.
  induction args as [|a args IH]; intros l; simpl.
  - rewrite app_nil_r. destruct l. reflexivity.
  - destruct a as [c| |]; simpl; try apply IH.
    rewrite IH. destruct l. cbn. rewrite <- app_assoc. reflexivity.
Qed.

(** X5. [add_exception] appends to the whitelist the arguments that are
    exception classes, in the order given, skips every other argument and
    changes nothing else; whatever was caught before is still caught, and
    every instance of a subclass of an added class is caught from then
    on. *)
Theorem add_exception_extends_whitelist
    (args : list Loop.exc_arg) (l : Loop.t) :
  Loop.add_exception args l
  = Loop.set_whitelist
      (Loop._whitelist_exceptions l ++ accepted_classes args) l /\
  (forall e, Loop.whitelisted l e = true ->
             Loop.whitelisted (Loop.add_exception args l) e = true) /\
  (forall c e, List.In (Loop.ArgClass c) args ->
               issubclass (exn_class e) c = true ->
               Loop.whitelisted (Loop.add_exception args l) e = true) /\
  (accepted_classes args = [] -> Loop.add_exception args l = l).
Proof.
  split; [apply add_exception_whitelist|].
  rewrite add_exception_whitelist. unfold Loop.whitelisted.
  destruct l; cbn. split; [|split].
  - intros e He. rewrite existsb_app, He. reflexivity.
  - intros c e Hin Hsub. rewrite existsb_app. apply orb_true_iff. right.
    apply existsb_exists. exists c. split; [|exact Hsub].
    unfold accepted_classes. apply in_flat_map.
    exists (Loop.ArgClass c). split; [exact Hin | left; reflexivity].
  - intros ->. rewrite app_nil_r. reflexivity.
Qed.

Lemma add_exception_extends_whitelist_witness :
  Loop.whitelisted
    (Loop.add_exception [Loop.ArgNotClass; Loop.ArgClass ValueError]
       every_second)
    (BodyExc (Custom 0 ValueError) 0) = true.
Proof.
  apply (proj1 (proj2 (proj2
           (add_exception_extends_whitelist
              [Loop.ArgNotClass; Loop.ArgClass ValueError] every_second)))
           ValueError (BodyExc (Custom 0 ValueError) 0));
    [right; left; reflexivity | reflexivity].
Defined.

Lemma remove_exception_in (cs : list exc_class) (l : Loop.t) (c : exc_class) :
  List.In c (Loop._whitelist_exceptions (Loop.remove_exception cs l)) <->
  List.In c (Loop._whitelist_exceptions l) /\ ~ List.In c cs.
Proof.
  unfold Loop.remove_exception. destruct l; cbn.
  rewrite filter_In, negb_true_iff. apply and_iff_compat_l.
  split.
  - intros Hf Hin.
    assert (Ht : existsb (exc_class_eqb c) cs = true).
    { apply existsb_exists. exists c. split; [exact Hin|].
      apply exc_class_eqb_eq. reflexivity. }
    congruence.
  - intros Hn. destruct (existsb (exc_class_eqb c) cs) eqn:E; [|reflexivity].
    apply existsb_exists in E. destruct E as (d & Hd & Heq).
    apply exc_class_eqb_eq in Heq. subst d. contradiction.
Qed.

Lemma filter_all_kept {A} (p : A -> bool) (l : list A) :
  (forall x, List.In x l -> p x = true) -> List.filter p l = l.
Proof.
  induction l as [|a l IH]; intros H; simpl; [reflexivity|].
  rewrite (H a (or_introl eq_refl)). f_equal. apply IH.
  intros x Hx. apply H. right. exact Hx.
Qed.

(** X6. [remove_exception] keeps, in their order, exactly the whitelisted
    classes that are not among its arguments and changes nothing else;
    nothing is caught afterwards that was not caught before; removing the
    same classes again changes nothing; and a class that was not whitelisted
    is gone again once added and removed.  A class is removed by identity
    only: with the default whitelist, removing [OSError] leaves its subclass
    [TimeoutError], which is listed itself, caught. *)
Theorem remove_exception_filters_whitelist
    (cs : list exc_class) (l : Loop.t) :
  (forall c,
      List.In c (Loop._whitelist_exceptions (Loop.remove_exception cs l)) <->
      List.In c (Loop._whitelist_exceptions l) /\ ~ List.In c cs) /\
  (forall e, Loop.whitelisted (Loop.remove_exception cs l) e = true ->
             Loop.whitelisted l e = true) /\
  Loop.remove_exception cs (Loop.remove_exception cs l)
  = Loop.remove_exception cs l /\
  (forall c, ~ List.In c (Loop._whitelist_exceptions l) ->
             Loop.remove_exception [c]
               (Loop.add_exception [Loop.ArgClass c] l) = l) /\
  (forall i, Loop.whitelisted
               (Loop.remove_exception [OSError] (Loop.reset_exceptions l))
               (BodyExc TimeoutError i) = true).
Proof.
  split; [apply remove_exception_in|].
  split.
  { intros e. unfold Loop.whitelisted. rewrite !existsb_exists.
    intros (c & Hin & Hsub). exists c. split; [|exact Hsub].
    apply remove_exception_in in Hin. exact (proj1 Hin). }
  split.
  { unfold Loop.remove_exception, Loop.set_whitelist. destruct l; cbn.
    f_equal.
    apply filter_all_kept. intros x Hx. apply filter_In in Hx. exact (proj2 Hx). }
  split.
  { intros c Hn.
    unfold Loop.remove_exception, Loop.add_exception, Loop.set_whitelist.
    destruct l; cbn in *. f_equal.
    rewrite List.filter_app. cbn.
    rewrite (proj2 (exc_class_eqb_eq c c) eq_refl). cbn.
    rewrite app_nil_r. apply filter_all_kept.
    intros x Hx. rewrite orb_false_r. apply negb_true_iff.
    destruct (exc_class_eqb x c) eqn:E; [|reflexivity].
    apply exc_class_eqb_eq in E. subst x. contradiction. }
  intros i. destruct l; reflexivity.
Qed.

Lemma remove_exception_filters_whitelist_witness :
  Loop.whitelisted every_second (BodyExc OSError 0) = true.
Proof.
  apply (proj1 (proj2 (remove_exception_filters_whitelist [ClientError]
                         every_second)) (BodyExc OSError 0)).
  reflexivity.
Defined.

(** ** The next run in absolute-time mode: where it lies *)








(** ** The next run in absolute-time mode: the earliest one *)





(** ** The guard against drifting in absolute-time mode *)

(** X9. In absolute-time mode, a step that wakes the task from the sleep
    before a run (after a pass that did not fail) or from the early wake-up
    sleep calls the body only when the deadline computed anew lies strictly
    after the run just reached; when the step leaves the task in the early
    wake-up sleep, either nothing woke it, or the new deadline is not after
    the last run, the warning has been logged and a new Sleeper waits for
    that deadline. *)
Theorem body_called_only_past_last_run
    (w : Loop.World) (now : datetime) (out : Loop.body_outcome)
    (tk tk' : Loop.Task) :
  Loop._is_explicit_time (Loop.self w) = true ->
  Loop._task (Loop.self w) = Some tk ->
  Loop.t_pc tk = Loop.AtSleepEarly \/
  (Loop.t_pc tk = Loop.AtSleepTop /\
   Loop._last_loop_failed (Loop.self w) = false) ->
  let w' := Loop.resume now out w in
  Loop._task (Loop.self w') = Some tk' ->
  (Loop.t_pc tk' = Loop.AtBody ->
   exists last next,
     Loop._last_loop (Loop.self w') = Some last /\
     Loop._next_loop (Loop.self w') = Some next /\
     instant last < instant next /\
     Loop.log w' = Loop.log w ++ [Loop.BodyCall]) /\
  (Loop.t_pc tk' = Loop.AtSleepEarly ->
   w' = w \/
   exists last next s,
     Loop._last_loop (Loop.self w') = Some last /\
     Loop._next_loop (Loop.self w') = Some next /\
     instant next <= instant last /\
     Loop.log w' = Loop.log w ++ [Loop.EarlyWakeWarning] /\
     Loop._handle (Loop.self w') = Some s /\
     (s, Loop.host w') = Sleeper.init next now (Loop.host w)).
Proof.
  intros Hx Htk Hpc. destruct tk as [p mc]. cbn in Hpc.
  unfold Loop._is_explicit_time in Hx.
  open_world w.
  destruct Hpc as [-> | [-> Hf]]; subst;
    eval_step; on_tests; cbv beta iota; intros H1; injection H1 as <-;
    cbn [Loop.t_pc]; (split; [intros Hb | intros He]); try discriminate;
    try (left; reflexivity);
    try (right; do 3 eexists;
         repeat (split; [first [reflexivity | symmetry; eassumption
                               | unfold leb in *; lia]|]);
         first [reflexivity | symmetry; eassumption]);
    try (do 2 eexists;
         repeat (split; [first [reflexivity | unfold leb in *; lia]|]);
         reflexivity).
Qed.

Lemma body_called_only_past_last_run_witness :
  let w := Loop.run [Loop.CallStart;
                     Loop.TaskStep (utc_at 1 8) Loop.BodyReturns;
                     Loop.TimerDue 0]
             (Loop.new_world twice_daily) in
  let w' := Loop.resume (utc_at 1 10) Loop.BodyReturns w in
  exists last next,
    Loop._last_loop (Loop.self w') = Some last /\
    Loop._next_loop (Loop.self w') = Some next /\
    instant last < instant next /\
    Loop.log w' = Loop.log w ++ [Loop.BodyCall].
Proof.
  intros w w'.
  refine (proj1 (body_called_only_past_last_run w (utc_at 1 10)
                   Loop.BodyReturns
                   {| Loop.t_pc := Loop.AtSleepTop;
                      Loop.t_must_cancel := false |}
                   {| Loop.t_pc := Loop.AtBody;
                      Loop.t_must_cancel := false |}
                   _ _ _ _) _);
    first [reflexivity | right; split; reflexivity].
Defined.

(** ** A new countdown timer *)

(** X10. [Sleeper.__init__] on an event loop whose triggers all resolve
    futures that exist: the new Sleeper has a future of its own, pending,
    and exactly one trigger, scheduled after the time left to the deadline,
    or after zero when the deadline has passed; and a Sleeper that was in
    order before is in order afterwards, with another future. *)
Theorem sleeper_init_is_fresh
    (dt now : datetime) (el : Sleeper.EventLoop) :
  targets_exist el ->
  let s := fst (Sleeper.init dt now el) in
  let el' := snd (Sleeper.init dt now el) in
  live s el' /\
  Sleeper.futures el !! Sleeper.future s = None /\
  Sleeper.scheduled el' !! Sleeper.handle s =
    Some {| Sleeper.th_delay := Z.max (instant dt - instant now) 0;
            Sleeper.th_target := Sleeper.future s;
            Sleeper.th_state := Sleeper.Scheduled |} /\
  (instant dt <= instant now ->
   Sleeper.scheduled el' !! Sleeper.handle s =
     Some {| Sleeper.th_delay := 0;
             Sleeper.th_target := Sleeper.future s;
             Sleeper.th_state := Sleeper.Scheduled |}) /\
  targets_exist el' /\
  forall s0, live s0 el ->
             live s0 el' /\ Sleeper.future s0 <> Sleeper.future s.
Proof.
  intros Hwf s el'.
  destruct (init_live dt now el Hwf) as [Hlive Hh].
  fold s el' in Hlive, Hh.
  split; [exact Hlive|]. split.
  { subst s. unfold Sleeper.init. cbn. apply lookup_ge_None. lia. }
  split; [exact Hh|]. split.
  { intros Hpast. rewrite Hh. rewrite Z.max_r by lia. reflexivity. }
  split.
  { exact (proj1 (sleeper_ok_init None dt now el
                    (conj Hwf (fun s1 (H1 : None = Some s1) _ =>
                                 match H1 with end)))). }
  intros s0 (Hf & (d & Hs) & Hc).
  pose proof (lookup_lt_Some _ _ _ Hf) as Hlt.
  pose proof (lookup_lt_Some _ _ _ Hs) as Hlt'.
  assert (Hne : Sleeper.future s0 <> Sleeper.future s).
  { subst s. unfold Sleeper.init. cbn. lia. }
  split; [|exact Hne].
  subst s el'. unfold Sleeper.init, live, Sleeper.pending_triggers in *.
  cbn in *. split; [|split].
  - rewrite lookup_app_l by exact Hlt. exact Hf.
  - exists d. rewrite lookup_app_l by exact Hlt'. exact Hs.
  - rewrite count_app, Hc. cbn. unfold Sleeper.is_pending_for. cbn.
    destruct (Nat.eqb_spec (length (Sleeper.futures el)) (Sleeper.future s0));
      [lia | reflexivity].
Qed.

Lemma sleeper_init_is_fresh_witness :
  live (fst (Sleeper.init (utc_at 1 9) (utc_at 1 8) Sleeper.empty_loop))
    (snd (Sleeper.init (utc_at 1 9) (utc_at 1 8) Sleeper.empty_loop)).
Proof.
  assert (H : targets_exist Sleeper.empty_loop) by constructor.
  exact (proj1 (sleeper_init_is_fresh (utc_at 1 9) (utc_at 1 8)
                  Sleeper.empty_loop H)).
Defined.


(** ** The end of a countdown timer *)

Lemma unschedule_idem (th : Sleeper.TimerHandle) :
  Sleeper.unschedule (Sleeper.unschedule th) = Sleeper.unschedule th.
Proof. destruct th as [d f []]; reflexivity. Qed.

Lemma alter_unschedule_idem (h : nat) (l : list Sleeper.TimerHandle) :
  alter Sleeper.unschedule h (alter Sleeper.unschedule h l)
  = alter Sleeper.unschedule h l.
Proof.
  revert h. induction l as [|x l IH]; intros [|h]; simpl; try reflexivity.
  - rewrite unschedule_idem. reflexivity.
  - f_equal. apply IH.
Qed.

Lemma future_cancel_idem (f : nat) (el : Sleeper.EventLoop) :
  Sleeper.future_cancel f (Sleeper.future_cancel f el)
  = Sleeper.future_cancel f el.
Proof.
  pose proof (future_cancel_not_pending f el) as Hn.
  unfold Sleeper.future_cancel at 1.
  destruct (Sleeper.futures (Sleeper.future_cancel f el) !! f) as [[]|];
    first [reflexivity | congruence].
Qed.

(** A timer event never changes a future that is cancelled. *)
Lemma run_handle_keeps_cancelled (f h : nat) (el : Sleeper.EventLoop) :
  Sleeper.futures el !! f = Some Sleeper.Cancelled ->
  Sleeper.futures (Sleeper.run_handle h el) !! f = Some Sleeper.Cancelled.
Proof.
  intros Hf. unfold Sleeper.run_handle.
  destruct (Sleeper.scheduled el !! h) as [th|]; [|exact Hf].
  destruct (Sleeper.th_state th); try exact Hf.
  unfold Sleeper.set_result. cbn [Sleeper.futures].
  destruct (Sleeper.futures el !! Sleeper.th_target th) as [[]|] eqn:Et;
    cbn [Sleeper.futures]; try exact Hf.
  rewrite list_lookup_insert_ne; [exact Hf|]. intros E. congruence.
Qed.

Lemma run_handles_keep_cancelled (f : nat) (hs : list nat)
    (el : Sleeper.EventLoop) :
  Sleeper.futures el !! f = Some Sleeper.Cancelled ->
  Sleeper.futures (Sleeper.run_handles hs el) !! f = Some Sleeper.Cancelled.
Proof.
  unfold Sleeper.run_handles. revert el.
  induction hs as [|h hs IH]; intros el Hf; simpl; [exact Hf|].
  apply IH. apply run_handle_keeps_cancelled. exact Hf.
Qed.

(** [Sleeper.cancel] on a Sleeper whose trigger is pending. *)
Lemma cancel_live_sleeper (s : Sleeper.t) (el : Sleeper.EventLoop) :
  live s el ->
  Sleeper.wait s (Sleeper.cancel s el) = Some Sleeper.Cancelled /\
  Sleeper.done s (Sleeper.cancel s el) = true /\
  Sleeper.wait s (Sleeper.future_cancel (Sleeper.future s) el)
  = Some Sleeper.Cancelled /\
  Sleeper.pending_triggers (Sleeper.future s)
    (Sleeper.handle_cancel (Sleeper.handle s)
       (Sleeper.future_cancel (Sleeper.future s) el)) = 0%nat.
Proof.
  intros (Hf & (d & Hh) & Hc).
  assert (Hfc : Sleeper.future_cancel (Sleeper.future s) el
                = {| Sleeper.futures :=
                       <[Sleeper.future s := Sleeper.Cancelled]>
                         (Sleeper.futures el);
                     Sleeper.scheduled := Sleeper.scheduled el;
                     Sleeper.callback_errors := Sleeper.callback_errors el |}).
  { unfold Sleeper.future_cancel. rewrite Hf. reflexivity. }
  assert (Hw : Sleeper.futures (Sleeper.cancel s el) !! Sleeper.future s
               = Some Sleeper.Cancelled).
  { unfold Sleeper.cancel, Sleeper.handle_cancel. rewrite Hfc.
    cbn [Sleeper.futures]. apply list_lookup_insert_eq.
    eapply lookup_lt_Some. exact Hf. }
  split; [exact Hw|]. split.
  { unfold Sleeper.done. rewrite Hw. reflexivity. }
  split.
  { unfold Sleeper.wait. rewrite Hfc. cbn [Sleeper.futures].
    apply list_lookup_insert_eq. eapply lookup_lt_Some. exact Hf. }
  unfold Sleeper.pending_triggers, Sleeper.handle_cancel in *.
  rewrite Hfc. cbn [Sleeper.scheduled].
  assert (Hp : Sleeper.is_pending_for (Sleeper.future s)
                 {| Sleeper.th_delay := d;
                    Sleeper.th_target := Sleeper.future s;
                    Sleeper.th_state := Sleeper.Scheduled |} = true).
  { unfold Sleeper.is_pending_for. simpl.
    rewrite Nat.eqb_refl. reflexivity. }
  assert (Hu : Sleeper.is_pending_for (Sleeper.future s)
                 (Sleeper.unschedule
                    {| Sleeper.th_delay := d;
                       Sleeper.th_target := Sleeper.future s;
                       Sleeper.th_state := Sleeper.Scheduled |}) = false).
  { unfold Sleeper.is_pending_for. simpl. apply andb_false_r. }
  pose proof (count_alter_off (Sleeper.future s) Sleeper.unschedule
                _ _ _ Hh Hp Hu) as Ho.
  rewrite Hc in Ho. lia.
Qed.

(** X11. [Sleeper.cancel] is final.  Cancelling twice is cancelling once,
    and the trigger of a cancelled Sleeper does nothing when its time
    comes.  On a Sleeper whose trigger is pending, the future is cancelled
    (so a task waiting for it gets CancelledError), no trigger for it is
    left, and no timer event, of whatever registration and in whatever
    order, changes that. *)
Theorem sleeper_cancel_is_final (s : Sleeper.t) (el : Sleeper.EventLoop) :
  let el' := Sleeper.cancel s el in
  Sleeper.cancel s el' = el' /\
  Sleeper.run_handle (Sleeper.handle s) el' = el' /\
  (live s el ->
   Sleeper.wait s el' = Some Sleeper.Cancelled /\
   Sleeper.done s el' = true /\
   Sleeper.pending_triggers (Sleeper.future s) el' = 0%nat /\
   forall hs,
     Sleeper.wait s (Sleeper.run_handles hs el') = Some Sleeper.Cancelled).
Proof.
  intros el'. subst el'. split; [|split].
  - unfold Sleeper.cancel, Sleeper.handle_cancel.
    cbn [Sleeper.futures Sleeper.scheduled Sleeper.callback_errors].
    assert (E : Sleeper.future_cancel (Sleeper.future s)
                  {| Sleeper.futures :=
                       Sleeper.futures
                         (Sleeper.future_cancel (Sleeper.future s) el);
                     Sleeper.scheduled :=
                       alter Sleeper.unschedule (Sleeper.handle s)
                         (Sleeper.scheduled
                            (Sleeper.future_cancel (Sleeper.future s) el));
                     Sleeper.callback_errors :=
                       Sleeper.callback_errors
                         (Sleeper.future_cancel (Sleeper.future s) el) |}
                = {| Sleeper.futures :=
                       Sleeper.futures
                         (Sleeper.future_cancel (Sleeper.future s) el);
                     Sleeper.scheduled :=
                       alter Sleeper.unschedule (Sleeper.handle s)
                         (Sleeper.scheduled
                            (Sleeper.future_cancel (Sleeper.future s) el));
                     Sleeper.callback_errors :=
                       Sleeper.callback_errors
                         (Sleeper.future_cancel (Sleeper.future s) el) |}).
    { pose proof (future_cancel_not_pending (Sleeper.future s) el) as Hn.
      unfold Sleeper.future_cancel at 1. cbn [Sleeper.futures].
      destruct (Sleeper.futures
                  (Sleeper.future_cancel (Sleeper.future s) el)
                  !! Sleeper.future s) as [[]|];
        first [reflexivity | congruence]. }
    rewrite E. cbn [Sleeper.futures Sleeper.scheduled Sleeper.callback_errors].
    rewrite alter_unschedule_idem. reflexivity.
  - unfold Sleeper.run_handle, Sleeper.cancel, Sleeper.handle_cancel.
    cbn [Sleeper.scheduled].
    rewrite list_lookup_alter_eq.
    destruct (Sleeper.scheduled
                (Sleeper.future_cancel (Sleeper.future s) el)
                !! Sleeper.handle s) as [[d f []]|]; reflexivity.
  - intros Hlive.
    destruct (cancel_live_sleeper s el Hlive) as (Hw & Hd & _ & Hz).
    split; [exact Hw|]. split; [exact Hd|]. split; [exact Hz|].
    intros hs. unfold Sleeper.wait.
    apply run_handles_keep_cancelled. exact Hw.
Qed.

Lemma sleeper_cancel_is_final_witness :
  let s0 := fst (Sleeper.init (utc_at 1 9) (utc_at 1 8) Sleeper.empty_loop) in
  let el0 := snd (Sleeper.init (utc_at 1 9) (utc_at 1 8) Sleeper.empty_loop) in
  live s0 el0 /\
  Sleeper.wait s0 (Sleeper.cancel s0 el0) = Some Sleeper.Cancelled.
Proof.
  intros s0 el0.
  assert (H : live s0 el0).
  { repeat split; try reflexivity. eexists. reflexivity. }
  split; [exact H|].
  exact (proj1 (proj2 (proj2 (sleeper_cancel_is_final s0 el0)) H)).
Defined.

(** ** The Sleeper of a loop, over histories *)

(** X12. In every world a constructed loop reaches, whatever was called on
    it in whatever order, the Sleeper the loop holds is, as long as it is
    not done, in order: its future is pending, its current handle is a
    scheduled trigger for that future, and no other scheduled trigger
    resolves it; when that trigger runs, the future is finished, no trigger
    is left and no callback fails. *)
Theorem loop_sleeper_has_one_trigger
    (seconds minutes hours : option Q) (time : option Loop.time_arg)
    (count : option Z) (reconnect : bool) (l0 : Loop.t)
    (ops : list Loop.op) (s : Sleeper.t) :
  Loop.init seconds minutes hours time count reconnect = inr l0 ->
  let w := Loop.run ops (Loop.new_world l0) in
  Loop._handle (Loop.self w) = Some s ->
  Sleeper.done s (Loop.host w) = false ->
  let fired := Sleeper.run_handle (Sleeper.handle s) (Loop.host w) in
  live s (Loop.host w) /\
  Sleeper.wait s fired = Some Sleeper.Finished /\
  Sleeper.pending_triggers (Sleeper.future s) fired = 0%nat /\
  Sleeper.callback_errors fired = Sleeper.callback_errors (Loop.host w).
Proof.
  intros Hinit w Hs Hd fired.
  assert (H0 : sleeper_ok (Loop._handle (Loop.self (Loop.new_world l0)))
                 (Loop.host (Loop.new_world l0))).
  { split; [constructor|].
    intros s0 _ Hd0. discriminate Hd0. }
  pose proof (run_sleeper ops _ H0) as [_ Hlive].
  specialize (Hlive s Hs Hd).
  split; [exact Hlive|]. exact (run_handle_live s _ Hlive).
Qed.

Lemma loop_sleeper_has_one_trigger_witness :
  let w := Loop.run [Loop.CallStart;
                     Loop.TaskStep (utc_at 1 8) Loop.BodyReturns]
             (Loop.new_world twice_daily) in
  live {| Sleeper.future := 0; Sleeper.handle := 0 |} (Loop.host w).
Proof.
  intros w.
  refine (proj1 (loop_sleeper_has_one_trigger None None None
                   (Some (Loop.Seq [Loop.PyTime (Loop.to_dtime (utc_time 9));
                                    Loop.PyTime (Loop.to_dtime (utc_time 17))]))
                   None true twice_daily
                   [Loop.CallStart;
                    Loop.TaskStep (utc_at 1 8) Loop.BodyReturns]
                   {| Sleeper.future := 0; Sleeper.handle := 0 |}
                   _ _ _)); vm_compute; reflexivity.
Defined.

(** ** What the log tells: failures, hooks and calls of the body *)

(** Evaluate a step as [eval_step] does, leaving what is said of the log
    folded as well. *)
Ltac eval_log :=
  cbv beta iota zeta delta
    -[Clock.leb Clock.add Clock.timedelta_seconds Clock.instant
      Clock.astimezone Clock.combine Clock.date Clock.timetz
      Loop._next_sleep_time existsb issubclass
      Sleeper.init Sleeper.cancel Sleeper.wait Sleeper.done
      Sleeper.recalculate Sleeper.future_cancel Sleeper.run_handle
      Z.add Z.sub Z.eqb Z.leb Z.ltb Z.le Z.lt Z.max app is_Some bool_decide
      sleeper_ok
      is_error_hook is_body_call is_before_hook is_after_hook calls
      handled_as_error Nat.add].

Lemma calls_snoc (p : Loop.effect -> bool) (lg : list Loop.effect)
    (e : Loop.effect) :
  calls p (lg ++ [e]) = (calls p lg + (if p e then 1 else 0))%nat.
Proof.
  unfold calls. rewrite List.filter_app, length_app. simpl.
  destruct (p e); reflexivity.
Qed.

Lemma existsb_snoc (p : Loop.effect -> bool) (lg : list Loop.effect)
    (e : Loop.effect) :
  existsb p (lg ++ [e]) = existsb p lg || p e.
Proof. rewrite existsb_app. simpl. rewrite orb_false_r. reflexivity. Qed.

Lemma handled_snoc (lg : list Loop.effect) (e : Loop.effect) :
  Forall handled_as_error lg -> handled_as_error e ->
  Forall handled_as_error (lg ++ [e]).
Proof.
  intros Hl He. apply Forall_app. split; [exact Hl|].
  constructor; [exact He | constructor].
Qed.

Ltac close_failure :=
  cbv beta iota;
  match goal with
  | |- _ /\ _ =>
      split;
      [ rewrite ?existsb_snoc; cbn [is_error_hook];
        rewrite ?orb_false_r, ?orb_true_r;
        first [assumption | reflexivity]
      | repeat (apply handled_snoc; [|cbn [handled_as_error exn_class];
                                     first [exact I | split; assumption]]);
        assumption ]
  end.

(** Every operation keeps the failed flag and the calls of the error hook
    together. *)
Lemma apply_op_failure_logged (o : Loop.op) (w : Loop.World) :
  failure_logged w -> failure_logged (Loop.apply_op o w).
Proof.
  unfold failure_logged, Loop.failed.
  intros [Hf Hl]. destruct o; unfold Loop.apply_op.
  - open_world w. eval_log. on_tests; close_failure.
  - open_world w. eval_log. on_tests; close_failure.
  - open_world w. eval_log. on_tests; close_failure.
  - unfold Loop.handle_interval.
    destruct (Loop.configure seconds minutes hours time (Loop.self w))
      as [e|l1] eqn:Ec; [split; assumption|].
    destruct (configure_shape _ _ _ _ _ _ Ec) as (a & b & c & d & e & ->).
    clear Ec. open_world w. eval_log. on_tests; close_failure.
  - destruct (add_exception_shape args (Loop.self w)) as [wl E].
    unfold Loop.on_self. cbn. rewrite E. open_world w.
    split; [reflexivity | assumption].
  - open_world w. split; [reflexivity | assumption].
  - open_world w. split; [reflexivity | assumption].
  - destruct (Loop._task (Loop.self w)) as [[p mc]|] eqn:Et.
    + open_world w.
      destruct p; eval_log; on_tests; close_failure.
    + open_world w. split; [reflexivity | assumption].
  - open_world w. split; [reflexivity | assumption].
Qed.

Lemma run_failure_logged (ops : list Loop.op) (w : Loop.World) :
  failure_logged w -> failure_logged (Loop.run ops w).
Proof.
  unfold Loop.run. revert w.
  induction ops as [|o ops IH]; intros w Hinv; simpl; [exact Hinv|].
  apply IH. apply apply_op_failure_logged. exact Hinv.
Qed.

Lemma init_state
    (seconds minutes hours : option Q) (time : option Loop.time_arg)
    (count : option Z) (reconnect : bool) (l0 : Loop.t) :
  Loop.init seconds minutes hours time count reconnect = inr l0 ->
  exists a b c d e,
    l0 = Loop.set_schedule a b c d e (Loop.blank count reconnect).
Proof.
  unfold Loop.init.
  destruct (match count with Some c => c <=? 0 | None => false end);
    [discriminate|].
  apply configure_shape.
Qed.

(** X13. In every world a constructed loop reaches, [failed] is true exactly
    when the error hook has been called; and the error hook has only ever
    been given instances of [Exception] that are no [CancelledError]. *)
Theorem failed_iff_error_hook_called
    (seconds minutes hours : option Q) (time : option Loop.time_arg)
    (count : option Z) (reconnect : bool) (l0 : Loop.t)
    (ops : list Loop.op) :
  Loop.init seconds minutes hours time count reconnect = inr l0 ->
  let w := Loop.run ops (Loop.new_world l0) in
  (Loop.failed (Loop.self w) = true <->
   exists e, List.In (Loop.ErrorHook e) (Loop.log w)) /\
  (forall e, List.In (Loop.ErrorHook e) (Loop.log w) ->
             issubclass (exn_class e) Exception = true /\
             issubclass (exn_class e) CancelledError = false).
Proof.
  intros Hinit w.
  assert (H0 : failure_logged (Loop.new_world l0)).
  { destruct (init_state _ _ _ _ _ _ _ Hinit) as (a & b & c & d & e & ->).
    split; [reflexivity | constructor]. }
  destruct (run_failure_logged ops _ H0) as [Hf Hl]. fold w in Hf, Hl.
  split.
  - rewrite Hf, existsb_exists. split.
    + intros ([] & Hin & Hp); try discriminate. eauto.
    + intros [e Hin]. exists (Loop.ErrorHook e). split; [exact Hin|reflexivity].
  - intros e Hin. rewrite Forall_forall in Hl.
    exact (Hl _ (proj2 (list_elem_of_In _ _) Hin)).
Qed.

Lemma failed_iff_error_hook_called_witness :
  let w := Loop.run (to_first_body ++
                       [Loop.TaskStep (utc_at 1 8) (Loop.BodyRaises ValueError 7)])
             (Loop.new_world every_second) in
  Loop.failed (Loop.self w) = true <->
  exists e, List.In (Loop.ErrorHook e) (Loop.log w).
Proof.
  exact (proj1 (failed_iff_error_hook_called (Some 1%Q) None None None None
                  true every_second
                  (to_first_body ++
                     [Loop.TaskStep (utc_at 1 8) (Loop.BodyRaises ValueError 7)])
                  eq_refl)).
Defined.

Ltac close_bracket :=
  cbv beta iota; rewrite ?calls_snoc;
  cbn [is_after_hook is_before_hook] in *; cbn in * |-;
  unfold calls in *; lia.

(** Every operation keeps the calls of the two hooks in step. *)
Lemma apply_op_hooks_bracket (o : Loop.op) (w : Loop.World) :
  hooks_bracket w -> hooks_bracket (Loop.apply_op o w).
Proof.
  unfold hooks_bracket. intros Hinv. destruct o; unfold Loop.apply_op.
  - open_world w. eval_log. on_tests; close_bracket.
  - open_world w. eval_log. on_tests; close_bracket.
  - open_world w. eval_log. on_tests; close_bracket.
  - unfold Loop.handle_interval.
    destruct (Loop.configure seconds minutes hours time (Loop.self w))
      as [e|l1] eqn:Ec; [exact Hinv|].
    destruct (configure_shape _ _ _ _ _ _ Ec) as (a & b & c & d & e & ->).
    clear Ec. open_world w. eval_log. on_tests; close_bracket.
  - destruct (add_exception_shape args (Loop.self w)) as [wl E].
    unfold Loop.on_self. cbn. rewrite E. open_world w. exact Hinv.
  - open_world w. exact Hinv.
  - open_world w. exact Hinv.
  - destruct (Loop._task (Loop.self w)) as [[p mc]|] eqn:Et.
    + open_world w.
      destruct p; eval_log; on_tests; close_bracket.
    + open_world w. exact Hinv.
  - open_world w. exact Hinv.
Qed.

Lemma run_hooks_bracket (ops : list Loop.op) (w : Loop.World) :
  hooks_bracket w -> hooks_bracket (Loop.run ops w).
Proof.
  unfold Loop.run. revert w.
  induction ops as [|o ops IH]; intros w Hinv; simpl; [exact Hinv|].
  apply IH. apply apply_op_hooks_bracket. exact Hinv.
Qed.

(** X14. In every world a constructed loop reaches, the after-loop hook has
    been called at most as often as the before-loop hook, and strictly less
    often while a task of the loop is past its first step and not over: the
    after-loop hook is never called for a run whose before-loop hook was
    not. *)
Theorem after_hook_follows_before_hook
    (seconds minutes hours : option Q) (time : option Loop.time_arg)
    (count : option Z) (reconnect : bool) (l0 : Loop.t)
    (ops : list Loop.op) :
  Loop.init seconds minutes hours time count reconnect = inr l0 ->
  let w := Loop.run ops (Loop.new_world l0) in
  (calls is_after_hook (Loop.log w) <= calls is_before_hook (Loop.log w))%nat
  /\
  (inside_run (Loop.self w) = true ->
   (calls is_after_hook (Loop.log w) < calls is_before_hook (Loop.log w))%nat).
Proof.
  intros Hinit w.
  assert (H0 : hooks_bracket (Loop.new_world l0)).
  { destruct (init_state _ _ _ _ _ _ _ Hinit) as (a & b & c & d & e & ->).
    unfold hooks_bracket. cbn. lia. }
  pose proof (run_hooks_bracket ops _ H0) as H. fold w in H.
  unfold hooks_bracket in H. split.
  - lia.
  - intros Hi. rewrite Hi in H. lia.
Qed.

Lemma after_hook_follows_before_hook_witness :
  let w := Loop.run to_first_body (Loop.new_world every_second) in
  (calls is_after_hook (Loop.log w) < calls is_before_hook (Loop.log w))%nat.
Proof.
  intros w.
  apply (proj2 (after_hook_follows_before_hook (Some 1%Q) None None None None
                  true every_second to_first_body eq_refl)).
  reflexivity.
Defined.

Ltac close_never :=
  cbv beta iota; cbn in * |-;
  try contradiction; try discriminate;
  rewrite ?calls_snoc; cbn [is_body_call]; unfold calls in *;
  repeat split; first [assumption | reflexivity | lia].

(** Every operation leaves such a loop as it is in these respects. *)
Lemma apply_op_never_runs (o : Loop.op) (w : Loop.World) :
  never_runs w -> never_runs (Loop.apply_op o w).
Proof.
  unfold never_runs. intros (Hs & Hh & Hc & Hp).
  destruct o; unfold Loop.apply_op.
  - open_world w. eval_log. on_tests; close_never.
  - open_world w. eval_log. on_tests; close_never.
  - open_world w. eval_log. on_tests; close_never.
  - unfold Loop.handle_interval.
    destruct (Loop.configure seconds minutes hours time (Loop.self w))
      as [e|l1] eqn:Ec; [repeat split; assumption|].
    destruct (configure_shape _ _ _ _ _ _ Ec) as (a & b & c & d & e & ->).
    clear Ec. open_world w. eval_log. on_tests; close_never.
  - destruct (add_exception_shape args (Loop.self w)) as [wl E].
    unfold Loop.on_self. cbn. rewrite E. open_world w.
    repeat split; assumption.
  - open_world w. repeat split; assumption.
  - open_world w. repeat split; assumption.
  - destruct (Loop._task (Loop.self w)) as [[p mc]|] eqn:Et.
    + open_world w.
      destruct p; eval_log; on_tests; close_never.
    + open_world w. repeat split; assumption.
  - open_world w. repeat split; assumption.
Qed.

Lemma run_never_runs (ops : list Loop.op) (w : Loop.World) :
  never_runs w -> never_runs (Loop.run ops w).
Proof.
  unfold Loop.run. revert w.
  induction ops as [|o ops IH]; intros w Hinv; simpl; [exact Hinv|].
  apply IH. apply apply_op_never_runs. exact Hinv.
Qed.

(** X15. A loop that is asked to stop right after its first [start], before
    its task has run, never calls its body, whatever is done afterwards and
    however often it is started again.  A task of it that enters the [try]
    block finds the stop request set and goes to the [finally] block, which
    raises before it takes the request back, no Sleeper ever having been
    created: the request stays set, no Sleeper is created, and no task of
    the loop reaches the body or returns. *)
Theorem stopped_before_first_step_never_runs
    (seconds minutes hours : option Q) (time : option Loop.time_arg)
    (count : option Z) (reconnect : bool) (l0 : Loop.t)
    (ops : list Loop.op) :
  Loop.init seconds minutes hours time count reconnect = inr l0 ->
  let w := Loop.run (Loop.CallStart :: Loop.CallStop :: ops)
             (Loop.new_world l0) in
  calls is_body_call (Loop.log w) = 0%nat /\
  Loop._should_stop (Loop.self w) = true /\
  Loop._handle (Loop.self w) = None /\
  exists tk,
    Loop.fetch_task (Loop.self w) = Some tk /\
    Loop.t_pc tk <> Loop.AtBody /\
    Loop.t_pc tk <> Loop.Done Loop.Returned.
Proof.
  intros Hinit w.
  assert (H0 : never_runs
                 (Loop.run [Loop.CallStart; Loop.CallStop]
                    (Loop.new_world l0))).
  { destruct (init_state _ _ _ _ _ _ _ Hinit) as (a & b & c & d & e & ->).
    repeat split. }
  assert (Htask : forall o w1,
             is_Some (Loop._task (Loop.self w1)) ->
             is_Some (Loop._task (Loop.self (Loop.apply_op o w1)))).
  { intros o w1 [tk Htk]. destruct o; unfold Loop.apply_op.
    - open_world w1. eval_step. on_tests; eauto.
    - open_world w1. eval_step. on_tests; eauto.
    - open_world w1. eval_step. on_tests; eauto.
    - unfold Loop.handle_interval.
      destruct (Loop.configure seconds0 minutes0 hours0 time0 (Loop.self w1))
        as [e|l1] eqn:Ec; [eauto|].
      destruct (configure_shape _ _ _ _ _ _ Ec) as (a & b & c & d & e & ->).
      clear Ec. open_world w1. eval_step. on_tests; eauto.
    - destruct (add_exception_shape args (Loop.self w1)) as [wl E].
      unfold Loop.on_self. cbn. rewrite E. open_world w1. eauto.
    - open_world w1. eauto.
    - open_world w1. eauto.
    - open_world w1. destruct tk as [p mc].
      destruct p; eval_step; on_tests; eauto.
    - open_world w1. eauto. }
  assert (Hrun : forall os w1,
             is_Some (Loop._task (Loop.self w1)) ->
             is_Some (Loop._task (Loop.self (Loop.run os w1)))).
  { unfold Loop.run. induction os as [|o os IH]; intros w1 H1; simpl;
      [exact H1|]. apply IH. apply Htask. exact H1. }
  pose proof (run_never_runs ops _ H0) as (Hs & Hh & Hc & Hp).
  assert (Hw : w = Loop.run ops
                     (Loop.run [Loop.CallStart; Loop.CallStop]
                        (Loop.new_world l0))) by reflexivity.
  rewrite <- Hw in Hs, Hh, Hc, Hp.
  split; [exact Hc|]. split; [exact Hs|]. split; [exact Hh|].
  destruct (Hrun ops (Loop.run [Loop.CallStart; Loop.CallStop]
                        (Loop.new_world l0))) as [tk Htk].
  { destruct (init_state _ _ _ _ _ _ _ Hinit) as (a & b & c & d & e & ->).
    eexists. reflexivity. }
  rewrite <- Hw in Htk. exists tk. split; [exact Htk|].
  rewrite Htk in Hp.
  split; intros E; rewrite E in Hp; exact Hp.
Qed.

Lemma stopped_before_first_step_never_runs_witness :
  let w := Loop.run (Loop.CallStart :: Loop.CallStop ::
                       [body_returns; body_returns; Loop.CallStart;
                        body_returns; body_returns])
             (Loop.new_world every_second) in
  calls is_body_call (Loop.log w) = 0%nat.
Proof.
  exact (proj1 (stopped_before_first_step_never_runs (Some 1%Q) None None None
                  None true every_second
                  [body_returns; body_returns; Loop.CallStart;
                   body_returns; body_returns] eq_refl)).
Defined.

(** ** When a stop request is honoured *)

(** X16. [stop] called while the body runs, on a loop that has created a
    Sleeper: when the body returns the task returns too, without sleeping
    and without counting the run; the after-loop hook is called, the Sleeper
    is cancelled, and the stop request, the will-cancel flag and the run
    counter are back at their initial values. *)
Theorem stop_during_body_ends_loop
    (w : Loop.World) (now : datetime) (tk : Loop.Task) (s : Sleeper.t) :
  Loop._task (Loop.self w) = Some tk ->
  Loop.t_pc tk = Loop.AtBody ->
  Loop.t_must_cancel tk = false ->
  Loop._handle (Loop.self w) = Some s ->
  let w' := Loop.resume now Loop.BodyReturns (Loop.stop w) in
  Loop.fetch_task (Loop.self w')
  = Some {| Loop.t_pc := Loop.Done Loop.Returned;
            Loop.t_must_cancel := false |} /\
  Loop.is_running (Loop.self w') = false /\
  Loop.log w' = Loop.log w ++ [Loop.AfterLoopHook] /\
  Loop.host w' = Sleeper.cancel s (Loop.host w) /\
  Loop._should_stop (Loop.self w') = false /\
  Loop.is_being_cancelled (Loop.self w') = false /\
  Loop.loop_count (Loop.self w') = 0 /\
  Loop._last_loop (Loop.self w') = Loop._last_loop (Loop.self w) /\
  Loop._next_loop (Loop.self w') = Loop._next_loop (Loop.self w).
Proof.
  intros Htk Hpc Hmc Hh. destruct tk as [p mc]. cbn in Hpc, Hmc.
  open_world w. eval_step. repeat split.
Qed.

Lemma stop_during_body_ends_loop_witness :
  let w := Loop.run to_first_daily_body (Loop.new_world twice_daily) in
  Loop.is_running
    (Loop.self (Loop.resume (utc_at 1 11) Loop.BodyReturns (Loop.stop w)))
  = false.
Proof.
  intros w.
  refine (proj1 (proj2 (stop_during_body_ends_loop w (utc_at 1 11)
                          {| Loop.t_pc := Loop.AtBody;
                             Loop.t_must_cancel := false |}
                          {| Sleeper.future := 0; Sleeper.handle := 0 |}
                          _ _ _ _))); vm_compute; reflexivity.
Defined.

(** X17. [stop] called while the task sleeps (before a run, in the early
    wake-up sleep, between two runs, or in the back-off after a whitelisted
    failure) has no effect on the step that wakes the task: unless that step
    ends the task, it does what it would have done without the request, and
    the request stays set until the body has run once more. *)
Theorem stop_during_sleep_is_deferred
    (w : Loop.World) (now : datetime) (out : Loop.body_outcome)
    (tk : Loop.Task) :
  Loop._task (Loop.self w) = Some tk ->
  Loop.t_pc tk = Loop.AtSleepTop \/ Loop.t_pc tk = Loop.AtSleepEarly \/
  Loop.t_pc tk = Loop.AtSleepAfter \/ Loop.t_pc tk = Loop.AtBackoff ->
  Loop.is_running (Loop.self (Loop.resume now out w)) = true ->
  Loop.resume now out (Loop.stop w) = Loop.stop (Loop.resume now out w) /\
  Loop._should_stop (Loop.self (Loop.resume now out (Loop.stop w))) = true.
Proof.
  intros Htk Hpc. destruct tk as [p mc]. cbn in Hpc.
  open_world w.
  destruct Hpc as [-> | [-> | [-> | ->]]];
    eval_step;
    unfold Loop._next_sleep_time, Loop._find_time_index;
    cbn [Loop._sleep Loop._last_loop Loop._time];
    on_tests; cbv beta iota; intros Hrun;
    first [discriminate Hrun | split; reflexivity].
Qed.

Lemma stop_during_sleep_is_deferred_witness :
  let w := Loop.run [Loop.CallStart;
                     Loop.TaskStep (utc_at 1 8) Loop.BodyReturns;
                     Loop.TimerDue 0]
             (Loop.new_world twice_daily) in
  Loop._should_stop
    (Loop.self (Loop.resume (utc_at 1 10) Loop.BodyReturns (Loop.stop w)))
  = true.
Proof.
  intros w.
  refine (proj2 (stop_during_sleep_is_deferred w (utc_at 1 10)
                   Loop.BodyReturns
                   {| Loop.t_pc := Loop.AtSleepTop;
                      Loop.t_must_cancel := false |} _ _ _));
    first [left; reflexivity | vm_compute; reflexivity].
Defined.
(** ** Cancelling a loop *)

(** X18. [cancel] called while the task waits for a Sleeper whose future is
    pending cancels that future; the step that wakes the task then ends it
    with CancelledError: the error hook is not called and the failed flag
    is unchanged, the after-loop hook is called, the trigger of the Sleeper
    is taken off, and the will-cancel flag, the run counter and the stop
    request are at their initial values. *)
Theorem cancel_during_sleep_ends_task
    (w : Loop.World) (now : datetime) (out : Loop.body_outcome)
    (tk : Loop.Task) (s : Sleeper.t) :
  Loop._task (Loop.self w) = Some tk ->
  Loop.t_pc tk = Loop.AtSleepTop \/ Loop.t_pc tk = Loop.AtSleepEarly \/
  Loop.t_pc tk = Loop.AtSleepAfter ->
  Loop.t_must_cancel tk = false ->
  Loop.is_being_cancelled (Loop.self w) = false ->
  Loop._handle (Loop.self w) = Some s ->
  live s (Loop.host w) ->
  let w1 := Loop.cancel w in
  let w' := Loop.resume now out w1 in
  Sleeper.wait s (Loop.host w1) = Some Sleeper.Cancelled /\
  Loop.self w1 = Loop.self w /\
  Loop.fetch_task (Loop.self w')
  = Some {| Loop.t_pc := Loop.Done (Loop.Raised CancelledExc);
            Loop.t_must_cancel := false |} /\
  Loop.log w' = Loop.log w ++ [Loop.AfterLoopHook] /\
  Loop.failed (Loop.self w') = Loop.failed (Loop.self w) /\
  Sleeper.pending_triggers (Sleeper.future s) (Loop.host w') = 0%nat /\
  Loop.is_being_cancelled (Loop.self w') = false /\
  Loop.loop_count (Loop.self w') = 0 /\
  Loop._should_stop (Loop.self w') = false.
Proof.
  intros Htk Hpc Hmc Hwc Hh Hlive. destruct tk as [p mc].
  cbn in Hpc, Hmc. unfold Loop.is_being_cancelled in Hwc.
  pose proof (live_not_done _ _ Hlive) as Hd.
  destruct (cancel_live_sleeper s (Loop.host w) Hlive)
    as (_ & _ & Hfc & Hzero).
  fold (Sleeper.cancel s (Loop.host w)) in Hzero.
  destruct s as [f h]. cbn [Sleeper.future Sleeper.handle] in *.
  set (s := {| Sleeper.future := f; Sleeper.handle := h |}) in *.
  assert (EA : Loop.cancel w
               = Loop.on_host (Sleeper.future_cancel f) w).
  { clear Hfc Hzero Hlive. subst s. open_world w.
    destruct Hpc as [-> | [-> | ->]]; eval_step; rewrite Hd; reflexivity. }
  cbv zeta. rewrite EA. clear EA Hd Hlive.
  pose proof (future_cancel_idem f (Loop.host w)) as Hfc2.
  assert (Hz : Sleeper.pending_triggers f
                 (Sleeper.cancel s (Sleeper.future_cancel f (Loop.host w)))
               = 0%nat).
  { unfold Sleeper.cancel. subst s. cbn [Sleeper.future Sleeper.handle].
    rewrite Hfc2. exact Hzero. }
  clear Hfc2 Hzero. subst s. open_world w.
  destruct Hpc as [-> | [-> | ->]];
    eval_step; unfold Sleeper.wait; cbn [Sleeper.future];
    rewrite Hfc; cbv beta iota;
    (split; [reflexivity|]); (split; [reflexivity|]);
    (split; [reflexivity|]); (split; [reflexivity|]);
    (split; [reflexivity|]); (split; [exact Hz|repeat split]).
Qed.

Lemma cancel_during_sleep_ends_task_witness :
  let w := Loop.run [Loop.CallStart;
                     Loop.TaskStep (utc_at 1 8) Loop.BodyReturns]
             (Loop.new_world twice_daily) in
  Loop.fetch_task
    (Loop.self (Loop.resume (utc_at 1 8) Loop.BodyReturns (Loop.cancel w)))
  = Some {| Loop.t_pc := Loop.Done (Loop.Raised CancelledExc);
            Loop.t_must_cancel := false |}.
Proof.
  intros w.
  assert (Hlive : live {| Sleeper.future := 0; Sleeper.handle := 0 |}
                    (Loop.host w)).
  { repeat split; try reflexivity. eexists. reflexivity. }
  refine (proj1 (proj2 (proj2
            (cancel_during_sleep_ends_task w (utc_at 1 8) Loop.BodyReturns
               {| Loop.t_pc := Loop.AtSleepTop;
                  Loop.t_must_cancel := false |}
               {| Sleeper.future := 0; Sleeper.handle := 0 |}
               _ _ _ _ _ Hlive))));
    first [left; reflexivity | vm_compute; reflexivity].
Defined.

(** X19. [cancel] called while the body runs is delivered as CancelledError
    at the call of the body, and the whitelist decides what becomes of it.
    If no whitelisted class takes CancelledError (the default), the task
    ends with CancelledError; once a Sleeper exists, the after-loop hook is
    called and the flags and the run counter are reset.  If a whitelisted
    class takes it (as [BaseException] does) and [reconnect] is set, the
    cancellation is treated as a failed pass: the task is not cancelled, it
    sleeps the five seconds of the back-off and goes on. *)
Theorem cancel_during_body_meets_whitelist
    (w : Loop.World) (now : datetime) (out : Loop.body_outcome)
    (tk : Loop.Task) :
  Loop._task (Loop.self w) = Some tk ->
  Loop.t_pc tk = Loop.AtBody ->
  Loop.is_being_cancelled (Loop.self w) = false ->
  let w' := Loop.resume now out (Loop.cancel w) in
  (Loop.whitelisted (Loop.self w) CancelledExc = false ->
   forall s, Loop._handle (Loop.self w) = Some s ->
   Loop.fetch_task (Loop.self w')
   = Some {| Loop.t_pc := Loop.Done (Loop.Raised CancelledExc);
             Loop.t_must_cancel := false |} /\
   Loop.log w' = Loop.log w ++ [Loop.AfterLoopHook] /\
   Loop.failed (Loop.self w') = Loop.failed (Loop.self w) /\
   Loop.is_being_cancelled (Loop.self w') = false /\
   Loop.loop_count (Loop.self w') = 0 /\
   Loop._should_stop (Loop.self w') = false) /\
  (Loop.whitelisted (Loop.self w) CancelledExc = true ->
   Loop.reconnect (Loop.self w) = true ->
   Loop.fetch_task (Loop.self w')
   = Some {| Loop.t_pc := Loop.AtBackoff; Loop.t_must_cancel := false |} /\
   Loop.is_running (Loop.self w') = true /\
   Loop.log w' = Loop.log w ++ [Loop.AsyncSleep 5] /\
   Loop._last_loop_failed (Loop.self w') = true /\
   Loop.is_being_cancelled (Loop.self w') = false /\
   Loop.loop_count (Loop.self w') = Loop.loop_count (Loop.self w)).
Proof.
  intros Htk Hpc Hwc. destruct tk as [p mc]. cbn in Hpc.
  unfold Loop.is_being_cancelled in Hwc.
  unfold Loop.whitelisted. destruct w as [[] el lg]. cbn in * |-. subst.
  cbn [Loop.self Loop._whitelist_exceptions exn_class Loop.reconnect
       Loop._handle].
  split.
  - intros Hw s ->. eval_step. rewrite Hw. cbv beta iota. repeat split.
  - intros Hw ->. eval_step. rewrite Hw. cbv beta iota. repeat split.
Qed.

Lemma cancel_during_body_meets_whitelist_witness :
  let w := Loop.run (to_first_daily_body ++
                       [Loop.CallAddException [Loop.ArgClass BaseException]])
             (Loop.new_world twice_daily) in
  Loop.is_running
    (Loop.self (Loop.resume (utc_at 1 11) Loop.BodyReturns (Loop.cancel w)))
  = true.
Proof.
  intros w.
  refine (proj1 (proj2 (proj2
            (cancel_during_body_meets_whitelist w (utc_at 1 11)
               Loop.BodyReturns
               {| Loop.t_pc := Loop.AtBody; Loop.t_must_cancel := false |}
               _ _ _) _ _)));
    vm_compute; reflexivity.
Defined.

(** ** The first step in absolute-time mode *)



(** ** Undisturbed runs in relative-interval mode *)












